(** * azure-logs-mcp: a shallow embedding of the query server

    The development follows the three source files of the repository:

    - [security_queries.py]: the fixed catalog of canned queries;
    - [server.py]: the result formatter, the KQL syntax check, the
      saved-query store and the tool dispatcher;
    - [alerts.py]: the alert manager wrapping the management client.

    Python [str] values are modelled by [string]; a character of a
    [string] stands for the code point of the same number (0..255).
    Python [dict]s keep insertion order, so they are association lists
    whose first binding of a key is the live one. *)

From Stdlib Require Import String Ascii List ZArith Lia Bool Arith.
From Stdlib Require Import DecimalString.
Import ListNotations.

Open Scope list_scope.
Open Scope string_scope.

(** ** The fragment of Python the sources rely on *)

Module Py.

(** Exceptions, with the text [str(e)] produces for them. *)
Inductive exn : Type :=
| KeyError (key : string)
| ValueError (msg : string)
| TypeError (msg : string)
| AttributeError (msg : string)
| IndexError (msg : string)
| OSError (msg : string)
| SdkError (msg : string).   (* raised by the Azure SDK *)

Definition str_exn (e : exn) : string :=
  match e with
  | KeyError key => "'" ++ key ++ "'"
  | ValueError msg | TypeError msg | AttributeError msg
  | IndexError msg | OSError msg | SdkError msg => msg
  end.

(** A computation either returns or raises. *)
Inductive except (A : Type) : Type :=
| Return (a : A)
| Raise (e : exn).
Arguments Return {A} a.
Arguments Raise {A} e.

Definition bind {A B} (m : except A) (k : A -> except B) : except B :=
  match m with
  | Return a => k a
  | Raise e => Raise e
  end.

Fixpoint mapM {A B} (f : A -> except B) (l : list A) : except (list B) :=
  match l with
  | [] => Return []
  | a :: l' =>
      bind (f a) (fun b => bind (mapM f l') (fun bs => Return (b :: bs)))
  end.

(** Scalar values: what a cell of a result table holds. *)
Inductive value : Type :=
| VNone
| VBool (b : bool)
| VInt (z : Z)
| VFloat (text : string)       (* a float, by its [repr] *)
| VStr (s : string)
| VObj (cls text : string).   (* any other object: its class, its [str()] *)

(** Values built from scalars with lists and dicts. *)
#[warnings="-register-all"]
Inductive pyval : Type :=
| PVal (v : value)
| PList (items : list pyval)
| PDict (items : list (string * pyval)).

Definition PStr (s : string) : pyval := PVal (VStr s).

Definition string_of_Z (z : Z) : string :=
  NilEmpty.string_of_int (Z.to_int z).

(** [str(v)] *)
Definition str (v : value) : string :=
  match v with
  | VNone => "None"
  | VBool true => "True"
  | VBool false => "False"
  | VInt z => string_of_Z z
  | VFloat text => text
  | VStr s => s
  | VObj _ text => text
  end.

(** *** Dicts *)

Section Dict.
Context {V : Type}.

(** [d.get(k)] *)
Fixpoint dict_get (d : list (string * V)) (k : string) : option V :=
  match d with
  | [] => None
  | (k', v) :: d' => if String.eqb k k' then Some v else dict_get d' k
  end.

(** [k in d] *)
Definition dict_mem (d : list (string * V)) (k : string) : bool :=
  match dict_get d k with Some _ => true | None => false end.

(** [d[k]] *)
Definition dict_item (d : list (string * V)) (k : string) : except V :=
  match dict_get d k with
  | Some v => Return v
  | None => Raise (KeyError k)
  end.

(** [d[k] = v]: an existing key keeps its position. *)
Fixpoint dict_set (d : list (string * V)) (k : string) (v : V)
  : list (string * V) :=
  match d with
  | [] => [(k, v)]
  | (k', v') :: d' =>
      if String.eqb k k' then (k', v) :: d' else (k', v') :: dict_set d' k v
  end.

(** [d.keys()] *)
Definition dict_keys (d : list (string * V)) : list string := map fst d.

(** [dict(pairs)] *)
Definition dict_of (pairs : list (string * V)) : list (string * V) :=
  fold_left (fun d kv => dict_set d (fst kv) (snd kv)) pairs [].

(** How many bindings a dict holds for [k]. *)
Definition dict_count (d : list (string * V)) (k : string) : nat :=
  List.length (filter (fun kv => String.eqb k (fst kv)) d).
End Dict.

(** [v[k]] on a dynamically typed value *)
Definition getitem (v : pyval) (k : string) : except pyval :=
  match v with
  | PDict items => dict_item items k
  | PList _ => Raise (TypeError "list indices must be integers or slices, not str")
  | PVal _ => Raise (TypeError "object is not subscriptable")
  end.

(** *** Strings *)

(** [c.isspace()] for the code points below 256 *)
Definition isspace (c : ascii) : bool :=
  let n := nat_of_ascii c in
  (((9 <=? n) && (n <=? 13)) || ((28 <=? n) && (n <=? 32))
   || (n =? 133) || (n =? 160))%nat.

Fixpoint lstrip (s : string) : string :=
  match s with
  | EmptyString => EmptyString
  | String c r => if isspace c then lstrip r else s
  end.

Fixpoint rstrip (s : string) : string :=
  match s with
  | EmptyString => EmptyString
  | String c r =>
      match rstrip r with
      | EmptyString => if isspace c then EmptyString else String c EmptyString
      | r' => String c r'
      end
  end.

(** [s.strip()] *)
Definition strip (s : string) : string := rstrip (lstrip s).

(** Truth value of a string: non-empty. *)
Definition truthy (s : string) : bool :=
  match s with EmptyString => false | String _ _ => true end.

(** [c * n] *)
Fixpoint repeat_char (c : ascii) (n : nat) : string :=
  match n with
  | O => EmptyString
  | S n' => String c (repeat_char c n')
  end.

(** [s.ljust(w)]: the text, then spaces up to width [w]. *)
Definition ljust (s : string) (w : nat) : string :=
  s ++ repeat_char " " (w - String.length s).

(** [sep.join(parts)] *)
Definition join (sep : string) (parts : list string) : string :=
  String.concat sep parts.

(** [needle in hay] *)
Fixpoint contains (needle hay : string) : bool :=
  String.prefix needle hay
  || match hay with
     | EmptyString => false
     | String _ hay' => contains needle hay'
     end.

Definition newline : string := String (ascii_of_nat 10) EmptyString.

(** [l[i]] *)
Definition index {A} (l : list A) (i : nat) : except A :=
  match nth_error l i with
  | Some a => Return a
  | None => Raise (IndexError "list index out of range")
  end.

(** [max(xs)] *)
Definition max_of (xs : list nat) : except nat :=
  match xs with
  | [] => Raise (ValueError "max() arg is an empty sequence")
  | x :: xs' => Return (fold_left Nat.max xs' x)
  end.

(** [enumerate(l)] *)
Definition enumerate {A} (l : list A) : list (nat * A) :=
  combine (seq 0 (List.length l)) l.

(** An optional parameter: [None] when the caller leaves it out. *)
Definition or_default {A} (given : option A) (default : A) : A :=
  match given with
  | Some a => a
  | None => default
  end.

(** [l[:n]] *)
Definition slice_to {A} (l : list A) (n : Z) : list A :=
  if (0 <=? n)%Z then firstn (Z.to_nat n) l
  else firstn (Z.to_nat (Z.of_nat (List.length l) + n)) l.

End Py.

Import Py.

(** ** security_queries.py *)

Module SecurityQueries.

Definition entry (query description : string) : pyval :=
  PDict [("query", PStr query); ("description", PStr description)].

Definition SECURITY_QUERIES : list (string * pyval) :=
  [ ("failed_logins",
     entry "SigninLogs | where ResultType != 0 | summarize count() by UserPrincipalName, ResultType | order by count_ desc"
           "Failed login attempts by user");
    ("privileged_operations",
     entry "AuditLogs | where Category == 'RoleManagement' | project TimeGenerated, OperationName, InitiatedBy, TargetResources"
           "Privileged role management operations");
    ("suspicious_locations",
     entry "SigninLogs | where RiskLevelDuringSignIn == 'high' | project TimeGenerated, UserPrincipalName, Location, IPAddress"
           "High-risk sign-ins from suspicious locations");
    ("data_access_audit",
     entry "StorageBlobLogs | where OperationName == 'GetBlob' | summarize count() by AccountName, CallerIpAddress | order by count_ desc"
           "Data access patterns for blob storage");
    ("admin_activities",
     entry "AzureActivity | where CategoryValue == 'Administrative' and ActivityStatusValue == 'Success' | project TimeGenerated, Caller, OperationNameValue, ResourceGroup"
           "Administrative activities in Azure");
    ("network_security",
     entry "AzureNetworkAnalytics_CL | where FlowType_s == 'ExternalPublic' | summarize count() by SrcIP_s, DestPort_d | order by count_ desc"
           "External network connections");
    ("compliance_changes",
     entry "AzureActivity | where OperationNameValue contains 'policy' | project TimeGenerated, Caller, OperationNameValue, Properties"
           "Policy and compliance related changes") ].

(** [SECURITY_QUERIES.get(query_name)]: the entry, or [None]. *)
Definition get_security_query (query_name : string) : pyval :=
  match dict_get SECURITY_QUERIES query_name with
  | Some data => data
  | None => PVal VNone
  end.

(** One [{"name": ..., "description": ...}] per catalog item, in order. *)
Definition list_security_queries : except (list pyval) :=
  mapM (fun item : string * pyval =>
          let (name, data) := item in
          bind (getitem data "description") (fun description =>
          Return (PDict [("name", PStr name); ("description", description)])))
       SECURITY_QUERIES.

(** A listed entry whose two fields are the given strings. *)
Definition listed (e : pyval) (name description : string) : Prop :=
  getitem e "name" = Return (PStr name)
  /\ getitem e "description" = Return (PStr description).

End SecurityQueries.

(** ** server.py: the pure helpers *)

Module Server.

(** A result row, [dict(zip(table.columns, row))]. *)
Definition row : Type := list (string * value).

Definition pyval_of_row (r : row) : pyval :=
  PDict (map (fun kv : string * value => (fst kv, PVal (snd kv))) r).

Definition pyval_of_rows (rs : list row) : pyval :=
  PList (map pyval_of_row rs).

(** The two standard-library services the server prints with.  Their
    output formats are those of the [json] and [csv] modules and are
    not fixed here. *)
Record stdlib : Type := {
  (** [json.dumps(v, indent=2, default=str)] *)
  json_dumps_default_str : pyval -> string;
  (** [csv.DictWriter(out, fieldnames)]: [writeheader()], then
      [writerows(rows)]; the text written, or the [ValueError] of a
      row with a key outside [fieldnames]. *)
  csv_DictWriter : list string -> list row -> except string
}.

(** The class of the first object [json.dumps] without [default]
    refuses, if there is one. *)
Fixpoint first_object (v : pyval) : option string :=
  match v with
  | PVal (VObj cls _) => Some cls
  | PVal _ => None
  | PList items =>
      (fix scan (l : list pyval) : option string :=
         match l with
         | [] => None
         | x :: l' =>
             match first_object x with Some c => Some c | None => scan l' end
         end) items
  | PDict items =>
      (fix scan (l : list (string * pyval)) : option string :=
         match l with
         | [] => None
         | (_, x) :: l' =>
             match first_object x with Some c => Some c | None => scan l' end
         end) items
  end.

(** [json.dumps(v, indent=2)] *)
Definition json_dumps (L : stdlib) (v : pyval) : except string :=
  match first_object v with
  | Some cls =>
      Raise (TypeError ("Object of type " ++ cls ++ " is not JSON serializable"))
  | None => Return (json_dumps_default_str L v)
  end.

(** *** format_results *)

(** [str(row.get(h, ''))]: the cell under header [h], empty when the
    row lacks the key. *)
Definition cell (r : row) (h : string) : string :=
  str (match dict_get r h with Some v => v | None => VStr EmptyString end).

(** [results[:limit] if len(results) > limit else results] *)
Definition limited (results : list row) (limit : Z) : list row :=
  if (Z.of_nat (List.length results) >? limit)%Z
  then slice_to results limit
  else results.

(** The [table] branch, after its guard: [first] is
    [limited_results[0]]. *)
Definition table_lines (first : row) (limited_results : list row)
  : except (list string) :=
  let headers := dict_keys first in
  let rows := map (fun r => map (cell r) headers) limited_results in
  bind (mapM (fun ih : nat * string =>
                let (i, h) := ih in
                bind (mapM (fun r => bind (index r i) (fun c =>
                                     Return (String.length c))) rows)
                     (fun lens =>
                bind (max_of lens) (fun m =>
                Return (Nat.max (String.length h) m))))
             (enumerate headers))
       (fun col_widths =>
  let header_row :=
    join " | " (map (fun hw : string * nat => ljust (fst hw) (snd hw))
                    (combine headers col_widths)) in
  let separator := join "-+-" (map (repeat_char "-") col_widths) in
  bind (mapM (fun r =>
                bind (mapM (fun i => bind (index r i) (fun c =>
                                      bind (index col_widths i) (fun w =>
                                      Return (ljust c w))))
                           (seq 0 (List.length headers)))
                     (fun cells => Return (join " | " cells)))
             rows)
       (fun data_rows =>
  Return ([header_row; separator] ++ data_rows)%list)).

(** The three renderings of the rows kept. *)
Definition render (L : stdlib) (limited_results : list row)
           (format_type : string) : except string :=
  if String.eqb format_type "csv" then
    match limited_results with
    | [] => Return EmptyString
    | first :: _ => csv_DictWriter L (dict_keys first) limited_results
    end
  else if String.eqb format_type "table" then
    match limited_results with
    | [] => Return EmptyString
    | first :: _ =>
        bind (table_lines first limited_results) (fun lines =>
        Return (join newline lines))
    end
  else Return (json_dumps_default_str L (pyval_of_rows limited_results)).

(** [def format_results(results, format_type="json", limit=1000)] *)
Definition format_results (L : stdlib) (results : list row)
           (format_type : option string) (limit : option Z) : except string :=
  let format_type := or_default format_type "json" in
  let limit := or_default limit 1000%Z in
  match results with
  | [] => Return "No results found"
  | _ :: _ => render L (limited results limit) format_type
  end.

(** *** validate_kql_syntax *)

Definition is_upper (c : ascii) : bool :=
  ((65 <=? nat_of_ascii c) && (nat_of_ascii c <=? 90))%nat.
Definition is_lower (c : ascii) : bool :=
  ((97 <=? nat_of_ascii c) && (nat_of_ascii c <=? 122))%nat.
Definition is_digit (c : ascii) : bool :=
  ((48 <=? nat_of_ascii c) && (nat_of_ascii c <=? 57))%nat.

(** [[A-Za-z_]] *)
Definition table_start (c : ascii) : bool :=
  is_upper c || is_lower c || Ascii.eqb c "_".
(** [[A-Za-z0-9_]] *)
Definition table_char (c : ascii) : bool :=
  table_start c || is_digit c.

Fixpoint take_while (p : ascii -> bool) (s : string) : string :=
  match s with
  | EmptyString => EmptyString
  | String c r => if p c then String c (take_while p r) else EmptyString
  end.

(** [re.search(r'^[A-Za-z_][A-Za-z0-9_]*', s)]: the matched text.
    Without the multi-line flag [^] holds at position 0 only. *)
Definition re_search_table (s : string) : option string :=
  match s with
  | EmptyString => None
  | String c r =>
      if table_start c then Some (String c (take_while table_char r))
      else None
  end.

Definition validate_kql_syntax (query : string) : bool * string :=
  if negb (truthy (strip query)) then (false, "Empty query")
  else
    let kql_keywords :=
      ["where"; "project"; "summarize"; "order"; "limit"; "join"; "union";
       "extend"; "parse"] in
    let has_table :=
      match re_search_table (strip query) with
      | Some _ => true
      | None => false
      end in
    if negb has_table then (false, "Query must start with a table name")
    else (true, "Valid syntax").

(** *** The process state and the world outside *)

(** The arguments of an invocation, typed as the input schemas declare
    them: every argument is a string, but ["limit"], an integer. *)
Record arguments : Type := {
  fields : list (string * string);
  limit_arg : option Z
}.

Inductive client : Type := LogsQueryClient.

Record table : Type := { columns : list string; rows : list (list value) }.

Record saved : Type := { query : string; description : string }.

(** What the process asks of the world, in order. *)
Inductive event : Type :=
| NewClient (built : bool)
| QueryWorkspace (workspace_id query timespan : string)
| OpenFile (filename : string)
| WriteFile (filename content : string).

(** The answers of the world; each may depend on all that happened
    before. *)
Record world : Type := {
  (** [LogsQueryClient(DefaultAzureCredential())] *)
  new_client : list event -> except client;
  (** [logs_client.query_workspace(...)]: [response.tables] *)
  query_workspace :
    list event -> string -> string -> string -> except (list table);
  (** [open(filename, 'w')] *)
  open_write : list event -> string -> except unit
}.

(** The module-level globals, and the history of the run. *)
Record state : Type := {
  logs_client : option client;
  saved_queries : list (string * saved);
  history : list event
}.

Definition initial : state :=
  {| logs_client := None; saved_queries := []; history := [] |}.

(** Handlers read and write the globals and may raise. *)
Definition M (A : Type) : Type := state -> except A * state.

Definition ret {A} (a : A) : M A := fun st => (Return a, st).

Definition mbind {A B} (m : M A) (k : A -> M B) : M B :=
  fun st =>
    match m st with
    | (Return a, st') => k a st'
    | (Raise e, st') => (Raise e, st')
    end.

Definition lift {A} (x : except A) : M A := fun st => (x, st).

Definition try_ {A} (body : M A) (handler : exn -> M A) : M A :=
  fun st =>
    match body st with
    | (Return a, st') => (Return a, st')
    | (Raise e, st') => handler e st'
    end.

Declare Scope py_scope.
Delimit Scope py_scope with py.
Notation "x <- m ;; k" := (mbind m (fun x => k))
  (at level 61, m at next level, right associativity) : py_scope.
Notation "m ;;; k" := (mbind m (fun _ => k))
  (at level 61, right associativity) : py_scope.
Open Scope py_scope.

Definition record (ev : event) (st : state) : state :=
  {| logs_client := logs_client st;
     saved_queries := saved_queries st;
     history := (history st ++ [ev])%list |}.

Definition construct_client (W : world) : M client :=
  fun st =>
    match new_client W (history st) with
    | Return c => (Return c, record (NewClient true) st)
    | Raise e => (Raise e, record (NewClient false) st)
    end.

Definition set_logs_client (c : client) : M unit :=
  fun st =>
    (Return tt,
     {| logs_client := Some c;
        saved_queries := saved_queries st;
        history := history st |}).

Definition call_query_workspace (W : world)
           (workspace_id query timespan : string) : M (list table) :=
  fun st =>
    (query_workspace W (history st) workspace_id query timespan,
     record (QueryWorkspace workspace_id query timespan) st).

Definition open_file (W : world) (filename : string) : M unit :=
  fun st => (open_write W (history st) filename, record (OpenFile filename) st).

Definition write_file (filename content : string) : M unit :=
  fun st => (Return tt, record (WriteFile filename content) st).

Definition get_saved_queries : M (list (string * saved)) :=
  fun st => (Return (saved_queries st), st).

(** [saved_queries[name_key] = data] *)
Definition store_set (name_key : string) (data : saved) : M unit :=
  fun st =>
    (Return tt,
     {| logs_client := logs_client st;
        saved_queries := dict_set (saved_queries st) name_key data;
        history := history st |}).

(** [arguments[k]] and [arguments.get(k, default)] *)
Definition arg (arguments : arguments) (k : string) : M string :=
  lift (dict_item (fields arguments) k).

Definition arg_get (arguments : arguments) (k default : string) : string :=
  match dict_get (fields arguments) k with
  | Some v => v
  | None => default
  end.

(** All tables flattened into one row sequence. *)
Definition results_of (tables : list table) : list row :=
  flat_map (fun t => map (fun r => dict_of (combine (columns t) r)) (rows t))
           tables.

(** *** handle_call_tool, branch by branch *)

Section Dispatcher.
Variable W : world.
Variable L : stdlib.

Definition query_logs (arguments : arguments) : M string :=
  workspace_id <- arg arguments "workspace_id" ;;
  query <- arg arguments "query" ;;
  let timespan := arg_get arguments "timespan" "PT1H" in
  let format_type := arg_get arguments "format" "json" in
  let limit :=
    match limit_arg arguments with Some z => z | None => 1000%Z end in
  try_ (tables <- call_query_workspace W workspace_id query timespan ;;
        match tables with
        | [] => ret "No results found"
        | _ :: _ =>
            lift (format_results L (results_of tables)
                               (Some format_type) (Some limit))
        end)
       (fun e => ret ("Query failed: " ++ str_exn e)).

Definition save_query (arguments : arguments) : M string :=
  name_key <- arg arguments "name" ;;
  query <- arg arguments "query" ;;
  let description := arg_get arguments "description" EmptyString in
  store_set name_key {| query := query; description := description |} ;;;
  ret ("Query '" ++ name_key ++ "' saved successfully").

Definition list_saved_queries : M string :=
  store <- get_saved_queries ;;
  match store with
  | [] => ret "No saved queries"
  | _ :: _ =>
      let query_list :=
        map (fun item : string * saved =>
               let (name, data) := item in
               PDict [("name", PStr name);
                      ("description", PStr (description data));
                      ("query", PStr (query data))])
            store in
      lift (json_dumps L (PList query_list))
  end.

Definition run_saved_query (arguments : arguments) : M string :=
  workspace_id <- arg arguments "workspace_id" ;;
  query_name <- arg arguments "name" ;;
  let timespan := arg_get arguments "timespan" "PT1H" in
  store <- get_saved_queries ;;
  if negb (dict_mem store query_name)
  then ret ("Query '" ++ query_name ++ "' not found")
  else
    data <- lift (dict_item store query_name) ;;
    let query := query data in
    try_ (tables <- call_query_workspace W workspace_id query timespan ;;
          match tables with
          | [] => ret "No results found"
          | _ :: _ =>
              ret (json_dumps_default_str L
                     (pyval_of_rows (results_of tables)))
          end)
         (fun e => ret ("Query failed: " ++ str_exn e)).

Definition validate_query (arguments : arguments) : M string :=
  query <- arg arguments "query" ;;
  let (is_valid, message) := validate_kql_syntax query in
  lift (json_dumps L (PDict [("valid", PVal (VBool is_valid));
                             ("message", PStr message)])).

Definition list_tables (arguments : arguments) : M string :=
  workspace_id <- arg arguments "workspace_id" ;;
  try_ (let query := "search * | distinct $table | sort by $table asc" in
        tables <- call_query_workspace W workspace_id query "P30D" ;;
        names <- lift (match tables with
                       | [] => Return []
                       | t :: _ => mapM (fun r => index r 0) (rows t)
                       end) ;;
        lift (json_dumps L (PDict [("tables", PList (map PVal names))])))
       (fun e => ret ("Failed to list tables: " ++ str_exn e)).

Definition get_table_schema (arguments : arguments) : M string :=
  workspace_id <- arg arguments "workspace_id" ;;
  table_name <- arg arguments "table_name" ;;
  try_ (let query :=
          table_name
          ++ " | getschema | project ColumnName, DataType, ColumnType" in
        tables <- call_query_workspace W workspace_id query "P1D" ;;
        match tables with
        | t :: _ =>
            match rows t with
            | _ :: _ =>
                let schema :=
                  map (fun r => dict_of (combine (columns t) r)) (rows t) in
                lift (json_dumps L (PDict [("table", PStr table_name);
                                           ("schema", pyval_of_rows schema)]))
            | [] => ret ("No schema found for table " ++ table_name)
            end
        | [] => ret ("No schema found for table " ++ table_name)
        end)
       (fun e => ret ("Failed to get schema: " ++ str_exn e)).

(** A file write is one event; a failure while writing is that of
    [open]. *)
Definition export_results (arguments : arguments) : M string :=
  workspace_id <- arg arguments "workspace_id" ;;
  query <- arg arguments "query" ;;
  filename <- arg arguments "filename" ;;
  let format_type := arg_get arguments "format" "csv" in
  try_ (tables <- call_query_workspace W workspace_id query "PT24H" ;;
        match tables with
        | [] => ret "No results to export"
        | _ :: _ =>
            let results := results_of tables in
            (if String.eqb format_type "csv" then
               open_file W filename ;;;
               match results with
               | [] => ret tt
               | first :: _ =>
                   text <- lift (csv_DictWriter L (dict_keys first) results) ;;
                   write_file filename text
               end
             else
               open_file W filename ;;;
               write_file filename
                 (json_dumps_default_str L (pyval_of_rows results))) ;;;
            ret ("Results exported to " ++ filename ++ " ("
                 ++ string_of_Z (Z.of_nat (List.length results)) ++ " rows)")
        end)
       (fun e => ret ("Export failed: " ++ str_exn e)).

(** The chain of [if name == ...] tests and its fall-through. *)
Definition dispatch (name : string) (arguments : arguments) : M string :=
  if String.eqb name "query_logs" then query_logs arguments
  else if String.eqb name "save_query" then save_query arguments
  else if String.eqb name "list_saved_queries" then list_saved_queries
  else if String.eqb name "run_saved_query" then run_saved_query arguments
  else if String.eqb name "validate_query" then validate_query arguments
  else if String.eqb name "list_tables" then list_tables arguments
  else if String.eqb name "get_table_schema" then get_table_schema arguments
  else if String.eqb name "export_results" then export_results arguments
  else ret ("Unknown tool: " ++ name).

(** [if not logs_client: ...]: [Some text] is the early return. *)
Definition ensure_client : M (option string) :=
  fun st =>
    match logs_client st with
    | Some _ => ret None st
    | None =>
        try_ (c <- construct_client W ;;
              set_logs_client c ;;;
              ret None)
             (fun e =>
                ret (Some ("Failed to initialize Azure client: "
                           ++ str_exn e)))
             st
    end.

(** The text of the single [TextContent] returned, or the exception
    that escapes. *)
Definition handle_call_tool (name : string) (arguments : arguments)
  : M string :=
  early <- ensure_client ;;
  match early with
  | Some text => ret text
  | None => dispatch name arguments
  end.

(** A process run: the invocations one after the other. *)
Fixpoint run (calls : list (string * arguments)) (st : state)
  : list (except string) * state :=
  match calls with
  | [] => ([], st)
  | (name, arguments) :: calls' =>
      let (r, st') := handle_call_tool name arguments st in
      let (rs, st'') := run calls' st' in
      (r :: rs, st'')
  end.

End Dispatcher.

(** *** handle_list_tools *)

(** One entry of the [properties] of an input schema. *)
Record property : Type := {
  prop_type : string;
  prop_description : option string;
  prop_enum : option (list string);
  prop_default : option value
}.

(** A declared tool; [required] is empty when the schema has no
    ["required"] entry. *)
Record Tool : Type := {
  tool_name : string;
  tool_description : string;
  properties : list (string * property);
  required : list string
}.

Definition string_property (text : string) : property :=
  {| prop_type := "string"; prop_description := Some text;
     prop_enum := None; prop_default := None |}.

Definition handle_list_tools : list Tool :=
  [ {| tool_name := "query_logs";
       tool_description :=
         "Execute KQL query against Azure Log Analytics workspace";
       properties :=
         [("workspace_id", string_property "Azure Log Analytics workspace ID");
          ("query", string_property "KQL query to execute");
          ("timespan",
           {| prop_type := "string"; prop_description := Some "Time range";
              prop_enum := None; prop_default := Some (VStr "PT1H") |});
          ("format",
           {| prop_type := "string"; prop_description := None;
              prop_enum := Some ["json"; "csv"; "table"];
              prop_default := Some (VStr "json") |});
          ("limit",
           {| prop_type := "integer";
              prop_description := Some "Max rows to return";
              prop_enum := None; prop_default := Some (VInt 1000) |})];
       required := ["workspace_id"; "query"] |};
    {| tool_name := "save_query";
       tool_description := "Save a KQL query for reuse";
       properties :=
         [("name", string_property "Query name");
          ("query", string_property "KQL query");
          ("description", string_property "Query description")];
       required := ["name"; "query"] |};
    {| tool_name := "list_saved_queries";
       tool_description := "List all saved queries";
       properties := [];
       required := [] |};
    {| tool_name := "run_saved_query";
       tool_description := "Execute a saved query";
       properties :=
         [("workspace_id", string_property "Workspace ID");
          ("name", string_property "Saved query name");
          ("timespan",
           {| prop_type := "string"; prop_description := None;
              prop_enum := None; prop_default := Some (VStr "PT1H") |})];
       required := ["workspace_id"; "name"] |};
    {| tool_name := "validate_query";
       tool_description := "Validate KQL query syntax";
       properties := [("query", string_property "KQL query to validate")];
       required := ["query"] |};
    {| tool_name := "list_tables";
       tool_description := "List available tables in workspace";
       properties := [("workspace_id", string_property "Workspace ID")];
       required := ["workspace_id"] |};
    {| tool_name := "get_table_schema";
       tool_description := "Get schema for a specific table";
       properties :=
         [("workspace_id", string_property "Workspace ID");
          ("table_name", string_property "Table name")];
       required := ["workspace_id"; "table_name"] |};
    {| tool_name := "export_results";
       tool_description := "Export query results to file";
       properties :=
         [("workspace_id", string_property "Workspace ID");
          ("query", string_property "KQL query");
          ("filename", string_property "Output filename");
          ("format",
           {| prop_type := "string"; prop_description := None;
              prop_enum := Some ["csv"; "json"];
              prop_default := Some (VStr "csv") |})];
       required := ["workspace_id"; "query"; "filename"] |} ].

(** The construction attempts of a history. *)
Definition is_attempt (ev : event) : bool :=
  match ev with NewClient _ => true | _ => false end.
Definition attempts (h : list event) : list event := filter is_attempt h.

(** The backend query executions of a history. *)
Definition is_query (ev : event) : bool :=
  match ev with QueryWorkspace _ _ _ => true | _ => false end.
Definition backend_calls (h : list event) : list event := filter is_query h.

End Server.

(** ** alerts.py *)

Module Alerts.

(** The SDK models the rule is built from. *)
Record Source : Type := { query : string; data_source_id : string }.
Record Schedule : Type :=
  { frequency_in_minutes : Z; time_window_in_minutes : Z }.
Record TriggerCondition : Type :=
  { threshold_operator : string; threshold : value }.
Record AlertingAction : Type :=
  { severity : string; trigger : TriggerCondition }.
Record LogSearchRuleResource : Type := {
  location : string;
  description : string;
  enabled : bool;
  source : Source;
  schedule : Schedule;
  action : AlertingAction
}.

(** A rule as the service lists it; any attribute may be [None]. *)
Record rule : Type := {
  rule_name : value;
  rule_id : value;
  rule_enabled : value;
  rule_description : value
}.

(** An activity-log entry.  An absent attribute is [None]:
    [event.resource_id], [event.event_timestamp] (held by its
    [isoformat()] text), [event.status] (held by its [value]). *)
Record EventData : Type := {
  resource_id : option string;
  event_timestamp : option string;
  status : option string;
  event_description : value
}.

(** The calls made on [MonitorManagementClient].  A call that lists
    answers with all the items or with the failure met on the way,
    whether at the call or while iterating. *)
Record MonitorManagementClient : Type := {
  (** [scheduled_query_rules.create_or_update(...)]: [result.id] *)
  create_or_update :
    string -> string -> LogSearchRuleResource -> except value;
  list_by_resource_group : string -> except (list rule);
  list_by_subscription : except (list rule);
  (** [activity_logs.list(filter=...)] *)
  activity_logs_list : string -> except (list EventData)
}.

Record AlertManager : Type := {
  client : MonitorManagementClient;
  subscription_id : string
}.

(** [try: body except Exception as e: handler] inside a function that
    could itself raise. *)
Definition catch {A} (body : except A) (handler : exn -> except A)
  : except A :=
  match body with
  | Return a => Return a
  | Raise e => handler e
  end.

Definition error_result (e : exn) : except pyval :=
  Return (PDict [("status", PStr "error"); ("message", PStr (str_exn e))]).

(** [def create_log_alert(self, resource_group, alert_name, workspace_id,
    query, threshold=1)] *)
Definition create_log_alert (self : AlertManager)
           (resource_group alert_name workspace_id query : string)
           (threshold : option value) : except pyval :=
  let threshold := or_default threshold (VInt 1) in
  catch
    (let criteria :=
       {| location := "global";
          description := "Alert for " ++ alert_name;
          enabled := true;
          source :=
            {| query := query;
               data_source_id :=
                 "/subscriptions/" ++ subscription_id self
                 ++ "/resourceGroups/" ++ resource_group
                 ++ "/providers/Microsoft.OperationalInsights/workspaces/"
                 ++ workspace_id |};
          schedule :=
            {| frequency_in_minutes := 5; time_window_in_minutes := 5 |};
          action :=
            {| severity := "3";
               trigger := {| threshold_operator := "GreaterThan";
                             threshold := threshold |} |} |} in
     bind (create_or_update (client self) resource_group alert_name criteria)
          (fun result_id =>
     Return (PDict [("status", PStr "success");
                    ("alert_id", PVal result_id)])))
    error_result.

(** [def list_alerts(self, resource_group=None)] *)
Definition list_alerts (self : AlertManager)
           (resource_group : option string) : except pyval :=
  catch
    (bind (match resource_group with
           | Some rg =>
               if truthy rg then list_by_resource_group (client self) rg
               else list_by_subscription (client self)
           | None => list_by_subscription (client self)
           end)
          (fun alerts =>
     let alert_list :=
       map (fun alert =>
              PDict [("name", PVal (rule_name alert));
                     ("id", PVal (rule_id alert));
                     ("enabled", PVal (rule_enabled alert));
                     ("description", PVal (rule_description alert))])
           alerts in
     Return (PDict [("status", PStr "success");
                    ("alerts", PList alert_list)])))
    error_result.

(** One turn of the loop over the events: the entry appended, if any. *)
Definition history_entry (alert_name : string) (event : EventData)
  : except (option pyval) :=
  match resource_id event with
  | None => Raise (TypeError "argument of type 'NoneType' is not iterable")
  | Some rid =>
      if contains alert_name rid then
        match event_timestamp event with
        | None =>
            Raise (AttributeError
                     "'NoneType' object has no attribute 'isoformat'")
        | Some timestamp =>
            match status event with
            | None =>
                Raise (AttributeError
                         "'NoneType' object has no attribute 'value'")
            | Some status_value =>
                Return (Some (PDict
                  [("timestamp", PStr timestamp);
                   ("status", PStr status_value);
                   ("description", PVal (event_description event))]))
            end
        end
      else Return None
  end.

Fixpoint collect {A} (l : list (option A)) : list A :=
  match l with
  | [] => []
  | Some a :: l' => a :: collect l'
  | None :: l' => collect l'
  end.

(** [def get_alert_history(self, resource_group, alert_name, days=7)] *)
Definition get_alert_history (self : AlertManager)
           (resource_group alert_name : string) (days : option Z)
  : except pyval :=
  let days := or_default days 7%Z in
  catch
    (let filter_str :=
       "eventTimestamp ge '" ++ string_of_Z days
       ++ "' and resourceGroupName eq '" ++ resource_group
       ++ "' and operationName.value eq 'Microsoft.Insights/scheduledQueryRules/write'" in
     bind (activity_logs_list (client self) filter_str) (fun events =>
     bind (mapM (history_entry alert_name) events) (fun entries =>
     Return (PDict [("status", PStr "success");
                    ("history", PList (collect entries))]))))
    error_result.

(** The contract of an operation: a result tagged [success], or tagged
    [error] and carrying a message. *)
Definition tagged_result (r : pyval) : Prop :=
  getitem r "status" = Return (PStr "success")
  \/ (getitem r "status" = Return (PStr "error")
      /\ exists message, getitem r "message" = Return (PStr message)).

End Alerts.

(** ** Notions the properties are stated with *)

(** Empty or made of white space only. *)
Fixpoint whitespace_only (s : string) : bool :=
  match s with
  | EmptyString => true
  | String c r => isspace c && whitespace_only r
  end.

(** The two ways of padding a text with spaces up to a width. *)
Definition pad_left (s : string) (w : nat) : string :=
  repeat_char " " (w - String.length s) ++ s.
Definition pad_right (s : string) (w : nat) : string :=
  s ++ repeat_char " " (w - String.length s).

(** The width of the column headed [h]: the longest of the header and
    of the cells of the column. *)
Definition column_width (rs : list Server.row) (h : string) : nat :=
  Nat.max (String.length h)
          (list_max (map (fun r => String.length (Server.cell r h)) rs)).

(** The lines of the table as the specification describes it, for a
    given way of padding: the header, the dashes, one line per row. *)
Definition described_lines (pad : string -> nat -> string)
           (headers : list string) (rs : list Server.row) : list string :=
  join " | " (map (fun h => pad h (column_width rs h)) headers)
  :: join "-+-" (map (fun h => repeat_char "-" (column_width rs h)) headers)
  :: map (fun r =>
            join " | " (map (fun h => pad (Server.cell r h) (column_width rs h))
                            headers))
         rs.

Definition described_table (pad : string -> nat -> string)
           (rs : list Server.row) : string :=
  match rs with
  | [] => EmptyString
  | first :: _ => join newline (described_lines pad (dict_keys first) rs)
  end.

(** Between two states of the server: the client handle is the same, no
    construction was attempted, and the store still has one entry per
    name. *)
Definition steady (st st' : Server.state) : Prop :=
  Server.logs_client st' = Server.logs_client st
  /\ Server.attempts (Server.history st') = Server.attempts (Server.history st)
  /\ (NoDup (dict_keys (Server.saved_queries st)) ->
      NoDup (dict_keys (Server.saved_queries st'))).

Definition keeps {A} (m : Server.M A) : Prop :=
  forall st, steady st (snd (m st)).

(** The construction attempts of a run read: failures, then at most one
    success, present exactly when the handle is set. *)
Definition construction_log (st : Server.state) : Prop :=
  exists failures,
    Server.attempts (Server.history st)
    = (repeat (Server.NewClient false) failures
       ++ match Server.logs_client st with
          | Some _ => [Server.NewClient true]
          | None => []
          end)%list.

(** Begins with a letter or an underscore. *)
Definition begins_with_letter_or_underscore (s : string) : bool :=
  match s with
  | EmptyString => false
  | String c _ => Server.is_upper c || Server.is_lower c || Ascii.eqb c "_"
  end.

(** ** Notions for the properties beyond the specification's list *)

(** How many rows the cap keeps of [len] rows. *)
Definition kept_count (len : nat) (limit : Z) : nat :=
  if (0 <=? limit)%Z then Nat.min (Z.to_nat limit) len
  else Z.to_nat (Z.of_nat len + limit).

(** The length of a table line: the columns and the joiners between
    them. *)
Definition table_width (headers : list string) (rs : list Server.row) : nat :=
  list_sum (map (column_width rs) headers) + 3 * (List.length headers - 1).

(** The first required argument an invocation lacks. *)
Definition first_missing (required : list string)
           (arguments : Server.arguments) : option string :=
  find (fun k => negb (dict_mem (Server.fields arguments) k)) required.

(** A branch of the dispatcher against the required arguments of its
    schema: it raises [KeyError] for the first one missing, before doing
    anything, and returns a text when none is. *)
Definition branch_outcome (required : list string)
           (branch : Server.arguments -> Server.M string) : Prop :=
  forall arguments st,
    match first_missing required arguments with
    | Some k => branch arguments st = (Raise (KeyError k), st)
    | None => exists text, fst (branch arguments st) = Return text
    end.

(** The arguments with one more string argument, given last. *)
Definition with_field (arguments : Server.arguments) (k v : string)
  : Server.arguments :=
  {| Server.fields := (Server.fields arguments ++ [(k, v)])%list;
     Server.limit_arg := Server.limit_arg arguments |}.

(** A handler that makes at most [n] backend query calls. *)
Definition within (n : nat) {A} (m : Server.M A) : Prop :=
  forall st,
    exists calls,
      Server.backend_calls (Server.history (snd (m st)))
      = (Server.backend_calls (Server.history st) ++ calls)%list
      /\ List.length calls <= n.

(** A handler whose runs relate the state before to the state after. *)
Definition respects (R : Server.state -> Server.state -> Prop)
           {A} (m : Server.M A) : Prop :=
  forall st, R st (snd (m st)).

Definition same_store (st st' : Server.state) : Prop :=
  Server.saved_queries st' = Server.saved_queries st.

(** Every name saved before is still saved after. *)
Definition store_grows (st st' : Server.state) : Prop :=
  forall name,
    dict_mem (Server.saved_queries st) name = true ->
    dict_mem (Server.saved_queries st') name = true.

(** Whether the history of an alert keeps an activity-log entry. *)
Definition matches (alert_name : string) (event : Alerts.EventData) : bool :=
  match Alerts.resource_id event with
  | Some rid => contains alert_name rid
  | None => false
  end.

(** An entry that can be read as far as the history reads it: it has a
    resource id and, when it is kept, a time stamp and a status. *)
Definition readable (alert_name : string) (event : Alerts.EventData) : Prop :=
  Alerts.resource_id event <> None
  /\ (matches alert_name event = true ->
      Alerts.event_timestamp event <> None /\ Alerts.status event <> None).

(** The history item of an entry. *)
Definition history_item (event : Alerts.EventData) : pyval :=
  PDict [("timestamp", PStr (or_default (Alerts.event_timestamp event)
                                        EmptyString));
         ("status", PStr (or_default (Alerts.status event) EmptyString));
         ("description", PVal (Alerts.event_description event))].

(** * Properties *)

(** ** The catalog *)

Section Catalog.
Import SecurityQueries.

(** C2, as the specification words it, fails: the value returned for
    ["failed_logins"] is the catalog entry, a mapping holding the query
    and its description, not the query string. *)
Lemma C2_get_security_query_not_a_string :
  ~ ((exists entries,
        list_security_queries = Return entries
        /\ List.length entries = 7
        /\ Forall (fun e => exists name description,
                       listed e name description
                       /\ name <> EmptyString
                       /\ description <> EmptyString) entries)
     /\ exists q,
         get_security_query "failed_logins" = PStr q
         /\ contains "SigninLogs" q = true).
Proof.
  intros [_ [q [Hq _]]].
  vm_compute in Hq.
  discriminate Hq.
Qed.

(** C2, amended: [list_security_queries()] returns exactly 7 entries,
    each with a non-empty name and a non-empty description, and
    [get_security_query("failed_logins")] returns the catalog entry
    whose query string contains ["SigninLogs"]. *)
Theorem C2_catalog :
  (exists entries,
      list_security_queries = Return entries
      /\ List.length entries = 7
      /\ Forall (fun e => exists name description,
                     listed e name description
                     /\ name <> EmptyString
                     /\ description <> EmptyString) entries)
  /\ exists q description,
      get_security_query "failed_logins" = entry q description
      /\ getitem (get_security_query "failed_logins") "query"
         = Return (PStr q)
      /\ contains "SigninLogs" q = true.
Proof.
  split.
  - eexists. split; [vm_compute; reflexivity|].
    split; [reflexivity|].
    repeat (apply Forall_cons;
            [do 2 eexists; split;
             [split; vm_compute; reflexivity | split; discriminate]|]).
    apply Forall_nil.
  - do 2 eexists. split; [vm_compute; reflexivity|].
    split; vm_compute; reflexivity.
Qed.
End Catalog.

(** ** The formatter on no rows *)

(** C3: on an empty row sequence the formatter returns the same fixed
    sentinel, whatever the mode (so in [json], [csv] and [table]) and
    whatever the limit. *)
Theorem C3_empty_results :
  forall (L : Server.stdlib) (format_type : option string) (limit : option Z),
    Server.format_results L [] format_type limit = Return "No results found".
Proof.
  intros L format_type limit. reflexivity.
Qed.

(** ** The syntax check *)

Section Validate.
Import Server.

Lemma lstrip_cases (q : string) :
  (whitespace_only q = true /\ lstrip q = EmptyString)
  \/ (whitespace_only q = false
      /\ exists c r, lstrip q = String c r /\ isspace c = false).
Proof.
  induction q as [|c r IH]; simpl.
  - left. split; reflexivity.
  - destruct (isspace c) eqn:Hc; simpl.
    + exact IH.
    + right. split; [reflexivity|]. exists c, r. split; [reflexivity|exact Hc].
Qed.

Lemma rstrip_keeps_head (c : ascii) (r : string) :
  isspace c = false -> exists r', rstrip (String c r) = String c r'.
Proof.
  intros Hc. simpl. destruct (rstrip r) as [|c' r'].
  - rewrite Hc. exists EmptyString. reflexivity.
  - exists (String c' r'). reflexivity.
Qed.

(** The trimmed text is empty exactly for white space, and otherwise
    starts with the first character that is not white space. *)
Lemma strip_cases (q : string) :
  (whitespace_only q = true /\ strip q = EmptyString)
  \/ (whitespace_only q = false
      /\ exists c r, strip q = String c r /\ isspace c = false).
Proof.
  unfold strip.
  destruct (lstrip_cases q) as [[Hw Hl]|[Hw [c [r [Hl Hc]]]]].
  - left. rewrite Hl. split; [exact Hw|reflexivity].
  - right. split; [exact Hw|]. rewrite Hl.
    destruct (rstrip_keeps_head c r Hc) as [r' Hr].
    exists c, r'. split; [exact Hr|exact Hc].
Qed.

(** C6: the three verdicts of [validate_kql_syntax], and the two
    worked inputs: white space only gives [(false, "Empty query")]; a
    trimmed text that does not begin with a letter or an underscore
    gives [(false, "Query must start with a table name")]; anything
    else gives [(true, "Valid syntax")]. *)
Theorem C6_validate_kql_syntax :
  (forall q : string,
      (whitespace_only q = true ->
       validate_kql_syntax q = (false, "Empty query"))
      /\ (whitespace_only q = false ->
          begins_with_letter_or_underscore (strip q) = false ->
          validate_kql_syntax q
          = (false, "Query must start with a table name"))
      /\ (whitespace_only q = false ->
          begins_with_letter_or_underscore (strip q) = true ->
          validate_kql_syntax q = (true, "Valid syntax")))
  /\ validate_kql_syntax " Table | where X" = (true, "Valid syntax")
  /\ validate_kql_syntax "123abc"
     = (false, "Query must start with a table name").
Proof.
  split; [|split; reflexivity].
  intros q. unfold validate_kql_syntax.
  destruct (strip_cases q) as [[Hw Hs]|[Hw [c [r [Hs Hc]]]]];
    rewrite Hs; simpl.
  - repeat split; intros; try reflexivity; congruence.
  - unfold table_start.
    repeat split; intros H1; try congruence; intros H2; rewrite H2;
      reflexivity.
Qed.

(** The three verdicts on three inputs. *)
Lemma C6_validate_kql_syntax_witness :
  validate_kql_syntax "   " = (false, "Empty query")
  /\ validate_kql_syntax " 9 lives" = (false, "Query must start with a table name")
  /\ validate_kql_syntax "  _Events | take 1 " = (true, "Valid syntax").
Proof.
  destruct C6_validate_kql_syntax as [H _].
  split; [|split].
  - apply (proj1 (H "   ")). reflexivity.
  - apply (proj1 (proj2 (H " 9 lives"))); reflexivity.
  - apply (proj2 (proj2 (H "  _Events | take 1 "))); reflexivity.
Defined.
End Validate.

(** ** The formatter: the table layout *)

Section Table.
Import Server.

Lemma mapM_ext_in {A B} (f : A -> except B) (g : A -> B) (l : list A) :
  (forall a, In a l -> f a = Return (g a)) -> mapM f l = Return (map g l).
Proof.
  induction l as [|a l IH]; simpl; intros H.
  - reflexivity.
  - rewrite (H a) by (left; reflexivity). simpl.
    rewrite IH by (intros b Hb; apply H; right; exact Hb).
    reflexivity.
Qed.

Lemma mapM_map {A B C} (f : B -> except C) (g : A -> B) (l : list A) :
  mapM f (map g l) = mapM (fun a => f (g a)) l.
Proof.
  induction l as [|a l IH]; simpl.
  - reflexivity.
  - rewrite IH. reflexivity.
Qed.

Lemma index_map {A B} (g : A -> B) (l : list A) (i : nat) (a : A) :
  nth_error l i = Some a -> index (map g l) i = Return (g a).
Proof.
  intros H. unfold index. rewrite nth_error_map, H. reflexivity.
Qed.

Lemma in_enumerate_from {A} (l : list A) :
  forall (s i : nat) (a : A),
    In (i, a) (combine (seq s (List.length l)) l) ->
    s <= i /\ nth_error l (i - s) = Some a.
Proof.
  induction l as [|x l IH]; simpl; intros s i a H.
  - contradiction.
  - destruct H as [H|H].
    + inversion H; subst. split; [lia|].
      rewrite Nat.sub_diag. reflexivity.
    + apply IH in H. destruct H as [Hle Hn]. split; [lia|].
      replace (i - s) with (S (i - S s)) by lia. exact Hn.
Qed.

Lemma in_enumerate {A} (l : list A) (i : nat) (a : A) :
  In (i, a) (enumerate l) -> nth_error l i = Some a.
Proof.
  intros H. apply in_enumerate_from in H. destruct H as [_ H].
  rewrite Nat.sub_0_r in H. exact H.
Qed.

Lemma map_snd_enumerate_from {A B} (g : A -> B) (l : list A) :
  forall s,
    map (fun ih : nat * A => g (snd ih)) (combine (seq s (List.length l)) l)
    = map g l.
Proof.
  induction l as [|x l IH]; simpl; intros s.
  - reflexivity.
  - rewrite IH. reflexivity.
Qed.

Lemma combine_map_r {A B C} (f : A -> B -> C) (g : A -> B) (l : list A) :
  map (fun ab : A * B => f (fst ab) (snd ab)) (combine l (map g l))
  = map (fun a => f a (g a)) l.
Proof.
  induction l as [|x l IH]; simpl.
  - reflexivity.
  - rewrite IH. reflexivity.
Qed.

Lemma fold_left_max (xs : list nat) :
  forall x, fold_left Nat.max xs x = Nat.max x (list_max xs).
Proof.
  induction xs as [|y ys IH]; simpl; intros x.
  - rewrite Nat.max_0_r. reflexivity.
  - rewrite IH. rewrite Nat.max_assoc. reflexivity.
Qed.

Lemma max_of_nonempty (x : nat) (xs : list nat) :
  max_of (x :: xs) = Return (list_max (x :: xs)).
Proof.
  unfold max_of. rewrite fold_left_max. reflexivity.
Qed.

(** Reading two columns built from the same headers, index by index. *)
Lemma zip_by_index_from {A B C D} (f : B -> C -> D)
      (g1 : A -> B) (g2 : A -> C) (hs : list A) :
  forall pre : list A,
    mapM (fun i => bind (index (map g1 (pre ++ hs)%list) i) (fun c =>
                   bind (index (map g2 (pre ++ hs)%list) i) (fun w =>
                   Return (f c w))))
         (seq (List.length pre) (List.length hs))
    = Return (map (fun h => f (g1 h) (g2 h)) hs).
Proof.
  induction hs as [|h hs IH]; intros pre.
  - reflexivity.
  - cbn [List.length seq mapM].
    assert (Hn : nth_error (pre ++ h :: hs)%list (List.length pre) = Some h).
    { rewrite nth_error_app2 by lia. rewrite Nat.sub_diag. reflexivity. }
    rewrite (index_map g1 _ _ _ Hn), (index_map g2 _ _ _ Hn).
    cbn [bind].
    specialize (IH (pre ++ [h])%list).
    rewrite <- app_assoc in IH. cbn [app] in IH.
    rewrite length_app in IH. cbn [List.length] in IH.
    rewrite Nat.add_1_r in IH.
    rewrite IH. reflexivity.
Qed.

Lemma zip_by_index {A B C D} (f : B -> C -> D)
      (g1 : A -> B) (g2 : A -> C) (hs : list A) :
  mapM (fun i => bind (index (map g1 hs) i) (fun c =>
                 bind (index (map g2 hs) i) (fun w =>
                 Return (f c w))))
       (seq 0 (List.length hs))
  = Return (map (fun h => f (g1 h) (g2 h)) hs).
Proof.
  exact (zip_by_index_from f g1 g2 hs []).
Qed.

(** The widths the code computes by column index are the widths by
    header. *)
Lemma col_widths_by_header (headers : list string) (r0 : row) (rs : list row) :
  mapM (fun ih : nat * string =>
          let (i, h) := ih in
          bind (mapM (fun r => bind (index r i) (fun c =>
                               Return (String.length c)))
                     (map (fun r => map (cell r) headers) (r0 :: rs)))
               (fun lens =>
          bind (max_of lens) (fun m =>
          Return (Nat.max (String.length h) m))))
       (enumerate headers)
  = Return (map (column_width (r0 :: rs)) headers).
Proof.
  rewrite (mapM_ext_in _ (fun ih => column_width (r0 :: rs) (snd ih))).
  - unfold enumerate. rewrite map_snd_enumerate_from. reflexivity.
  - intros [i h] Hin. apply in_enumerate in Hin.
    rewrite mapM_map.
    rewrite (mapM_ext_in _ (fun r => String.length (cell r h))).
    + cbn [map bind]. rewrite max_of_nonempty. reflexivity.
    + intros r _. rewrite (index_map (cell r) _ _ _ Hin). reflexivity.
Qed.

Lemma table_lines_described (first r0 : row) (rs : list row) :
  table_lines first (r0 :: rs)
  = Return (described_lines pad_right (dict_keys first) (r0 :: rs)).
Proof.
  unfold table_lines.
  rewrite col_widths_by_header. cbn [bind].
  rewrite mapM_map.
  rewrite (mapM_ext_in _
             (fun r => join " | "
                         (map (fun h => pad_right (cell r h)
                                          (column_width (r0 :: rs) h))
                              (dict_keys first)))).
  - cbn [bind]. unfold described_lines.
    rewrite (combine_map_r (fun h w => ljust h w)).
    rewrite map_map. reflexivity.
  - intros r _.
    rewrite (zip_by_index (fun c w => ljust c w)). reflexivity.
Qed.

Lemma length_repeat_char (c : ascii) (n : nat) :
  String.length (repeat_char c n) = n.
Proof.
  induction n as [|n IH]; simpl; [reflexivity|]. rewrite IH. reflexivity.
Qed.

Lemma length_string_app (s t : string) :
  String.length (s ++ t) = String.length s + String.length t.
Proof.
  induction s as [|c s IH]; simpl; [reflexivity|]. rewrite IH. reflexivity.
Qed.

Lemma length_pad_right (s : string) (w : nat) :
  String.length s <= w -> String.length (pad_right s w) = w.
Proof.
  intros H. unfold pad_right.
  rewrite length_string_app, length_repeat_char. lia.
Qed.

Lemma cell_fits_column (rs : list row) (r : row) (h : string) :
  In r rs -> String.length (cell r h) <= column_width rs h.
Proof.
  intros Hin. unfold column_width.
  assert (H : list_max (map (fun r => String.length (cell r h)) rs)
              <= list_max (map (fun r => String.length (cell r h)) rs))
    by reflexivity.
  apply list_max_le in H. rewrite Forall_forall in H.
  specialize (H (String.length (cell r h))
                (in_map (fun r => String.length (cell r h)) rs r Hin)).
  lia.
Qed.

(** C5, as the specification words it, fails: the padding of a cell
    goes after its text, not before it. *)
Lemma C5_cells_not_left_padded :
  ~ (forall (L : stdlib) (rs : list row) (limit : option Z),
        rs <> [] ->
        format_results L rs (Some "table") limit
        = Return (described_table pad_left
                    (limited rs (or_default limit 1000%Z)))).
Proof.
  intros H.
  specialize (H {| json_dumps_default_str := fun _ => EmptyString;
                   csv_DictWriter := fun _ _ => Return EmptyString |}
                [[("a", VStr "xyz")]] None).
  assert (Hne : [[("a", VStr "xyz")]] <> []) by discriminate.
  specialize (H Hne). vm_compute in H. discriminate H.
Qed.

(** C5, amended: in table mode, for every non-empty row sequence, the
    output is made of the rows kept under the limit: each column is as
    wide as the longest of its header and its cells; every cell is
    padded to that width with single spaces put after its text; the
    columns are joined with [" | "]; the line after the header is the
    runs of dashes of the column widths joined with ["-+-"]. *)
Theorem C5_table_layout :
  forall (L : stdlib) (rs : list row) (limit : option Z),
    rs <> [] ->
    let kept := limited rs (or_default limit 1000%Z) in
    format_results L rs (Some "table") limit
    = Return (described_table pad_right kept)
    /\ (forall r h, In r kept ->
          String.length (pad_right (cell r h) (column_width kept h))
          = column_width kept h)
    /\ (forall h,
          String.length (pad_right h (column_width kept h))
          = column_width kept h).
Proof.
  intros L rs limit Hne kept. split; [|split].
  - destruct rs as [|r rs']; [contradiction|].
    unfold format_results. cbn [or_default].
    fold kept. unfold render. cbn [String.eqb Ascii.eqb Bool.eqb].
    destruct kept as [|k0 kept'].
    + reflexivity.
    + rewrite table_lines_described. reflexivity.
  - intros r h Hin. apply length_pad_right. apply cell_fits_column. exact Hin.
  - intros h. apply length_pad_right. unfold column_width. lia.
Qed.

(** A two-row table, written out. *)
Lemma C5_table_layout_witness :
  format_results {| json_dumps_default_str := fun _ => EmptyString;
                    csv_DictWriter := fun _ _ => Return EmptyString |}
                 [[("a", VStr "xyz"); ("id", VInt 7)];
                  [("a", VStr "x"); ("id", VInt 12345)]]
                 (Some "table") None
  = Return (join newline ["a   | id   "; "----+------";
                          "xyz | 7    "; "x   | 12345"]).
Proof.
  refine (eq_trans (proj1 (C5_table_layout _ _ None _)) _).
  - discriminate.
  - vm_compute. reflexivity.
Defined.

End Table.

(** ** The formatter: the row cap *)

Section Truncation.
Import Server.

Lemma limited_firstn (rs : list row) (n : Z) :
  (0 <= n)%Z -> (n < Z.of_nat (List.length rs))%Z ->
  limited rs n = firstn (Z.to_nat n) rs.
Proof.
  intros H0 Hlt. unfold limited, slice_to.
  destruct (Z.gtb_spec (Z.of_nat (List.length rs)) n) as [_|Hle]; [|lia].
  destruct (Z.leb_spec 0 n) as [_|Hneg]; [reflexivity|lia].
Qed.

Lemma limited_all (rs : list row) (n : Z) :
  (Z.of_nat (List.length rs) <= n)%Z -> limited rs n = rs.
Proof.
  intros Hle. unfold limited.
  destruct (Z.gtb_spec (Z.of_nat (List.length rs)) n) as [Hgt|_];
    [lia|reflexivity].
Qed.

Lemma length_described_lines (pad : string -> nat -> string)
      (headers : list string) (rs : list row) :
  List.length (described_lines pad headers rs) = 2 + List.length rs.
Proof.
  unfold described_lines. cbn [List.length]. rewrite length_map. reflexivity.
Qed.

(** C4, as the specification words it, fails for a limit below zero:
    with three rows and limit -1 the table shows the first two rows,
    where the first -1 rows are no row at all. *)
Lemma C4_negative_limit :
  ~ (forall (L : stdlib) (rs : list row) (format_type : string) (limit : Z),
        (Z.of_nat (List.length rs) > limit)%Z ->
        format_results L rs (Some format_type) (Some limit)
        = render L (firstn (Z.to_nat limit) rs) format_type).
Proof.
  intros H.
  specialize (H {| json_dumps_default_str := fun _ => EmptyString;
                   csv_DictWriter := fun _ _ => Return EmptyString |}
                [[("n", VInt 1)]; [("n", VInt 2)]; [("n", VInt 3)]]
                "table" (-1)%Z).
  assert (Hgt : (Z.of_nat
                   (List.length [[("n", VInt 1)]; [("n", VInt 2)];
                                 [("n", VInt 3)]]) > -1)%Z)
    by (vm_compute; reflexivity).
  specialize (H Hgt). vm_compute in H. discriminate H.
Qed.

(** C4, amended: for every limit that is not negative (1000 when the
    caller gives none) and every row sequence longer than the limit, the
    formatter renders the first [limit] rows and nothing else: exactly
    [limit] rows are kept, the output is the one the first [limit] rows
    alone give, so it carries no truncation notice, and in table mode it
    has exactly [limit] data lines under the header and the dashes. *)
Theorem C4_truncation :
  forall (L : stdlib) (rs : list row)
         (format_type : option string) (limit : option Z) (n : Z),
    or_default limit 1000%Z = n ->
    (0 <= n)%Z ->
    (n < Z.of_nat (List.length rs))%Z ->
    let kept := firstn (Z.to_nat n) rs in
    limited rs n = kept
    /\ Z.of_nat (List.length kept) = n
    /\ format_results L rs format_type limit
       = render L kept (or_default format_type "json")
    /\ ((0 < n)%Z ->
        format_results L rs format_type limit
        = format_results L kept format_type limit)
    /\ ((0 < n)%Z ->
        exists header_row separator data_rows,
          format_results L rs (Some "table") limit
          = Return (join newline (header_row :: separator :: data_rows))
          /\ Z.of_nat (List.length data_rows) = n)
    /\ format_results L rs format_type None
       = format_results L rs format_type (Some 1000%Z).
Proof.
  intros L rs format_type limit n Hn H0 Hlt kept.
  assert (Hlim : limited rs n = kept) by (apply limited_firstn; assumption).
  assert (Hlen : Z.of_nat (List.length kept) = n).
  { unfold kept. rewrite length_firstn. lia. }
  assert (Hfmt : forall ft,
             format_results L rs ft limit = render L kept (or_default ft "json")).
  { intros ft. unfold format_results. rewrite Hn, Hlim.
    destruct rs as [|r rs']; [simpl in Hlt; lia|reflexivity]. }
  split; [exact Hlim|]. split; [exact Hlen|]. split; [apply Hfmt|].
  split; [|split].
  - intros Hpos. rewrite Hfmt. unfold format_results. rewrite Hn.
    rewrite (limited_all kept n) by lia.
    destruct kept as [|k kept']; [simpl in Hlen; lia|reflexivity].
  - intros Hpos. rewrite Hfmt. cbn [or_default].
    unfold render. cbn [String.eqb Ascii.eqb Bool.eqb].
    destruct kept as [|k kept'] eqn:Hk; [simpl in Hlen; lia|].
    rewrite table_lines_described. cbn [bind].
    unfold described_lines.
    do 3 eexists. split; [reflexivity|].
    rewrite length_map. exact Hlen.
  - reflexivity.
Qed.

(** Three rows under limit 2. *)
Lemma C4_truncation_witness :
  format_results {| json_dumps_default_str := fun _ => EmptyString;
                    csv_DictWriter := fun _ _ => Return EmptyString |}
                 [[("n", VInt 1)]; [("n", VInt 2)]; [("n", VInt 3)]]
                 (Some "table") (Some 2%Z)
  = Return (join newline ["n"; "-"; "1"; "2"]).
Proof.
  refine (eq_trans
            (proj1 (proj2 (proj2
               (C4_truncation _ _ (Some "table") (Some 2%Z) 2%Z _ _ _))))
            _).
  - reflexivity.
  - lia.
  - vm_compute. reflexivity.
  - vm_compute. reflexivity.
Defined.

End Truncation.

(** ** Dicts as stores *)

Section DictFacts.
Context {V : Type}.
Implicit Types (d : list (string * V)) (k : string) (v : V).

Lemma dict_mem_In d k : dict_mem d k = true <-> In k (dict_keys d).
Proof.
  unfold dict_mem. induction d as [|[k' v'] d IH]; simpl.
  - split; [discriminate|contradiction].
  - destruct (String.eqb_spec k k') as [->|Hne].
    + split; [intros _; left; reflexivity|reflexivity].
    + rewrite IH. split; [intros H; right; exact H|].
      intros [H|H]; [congruence|exact H].
Qed.

Lemma dict_mem_false d k : dict_mem d k = false -> ~ In k (dict_keys d).
Proof.
  intros H Hin. apply dict_mem_In in Hin. congruence.
Qed.

Lemma dict_keys_set d k v :
  dict_keys (dict_set d k v)
  = if dict_mem d k then dict_keys d else (dict_keys d ++ [k])%list.
Proof.
  unfold dict_mem. induction d as [|[k' v'] d IH]; simpl.
  - reflexivity.
  - destruct (String.eqb_spec k k') as [->|Hne]; simpl.
    + reflexivity.
    + rewrite IH. destruct (dict_get d k); reflexivity.
Qed.

Lemma dict_set_NoDup d k v :
  NoDup (dict_keys d) -> NoDup (dict_keys (dict_set d k v)).
Proof.
  intros Hnd. rewrite dict_keys_set.
  destruct (dict_mem d k) eqn:Hmem; [exact Hnd|].
  apply NoDup_app.
  - exact Hnd.
  - constructor; [intros []|constructor].
  - intros a Ha [Heq|[]]. subst a. exact (dict_mem_false d k Hmem Ha).
Qed.

Lemma dict_get_set_same d k v : dict_get (dict_set d k v) k = Some v.
Proof.
  induction d as [|[k' v'] d IH]; simpl.
  - rewrite String.eqb_refl. reflexivity.
  - destruct (String.eqb_spec k k') as [->|Hne]; simpl.
    + rewrite String.eqb_refl. reflexivity.
    + destruct (String.eqb_spec k k'); [contradiction|exact IH].
Qed.

Lemma dict_get_set_other d k v k0 :
  k0 <> k -> dict_get (dict_set d k v) k0 = dict_get d k0.
Proof.
  intros Hne. induction d as [|[k' v'] d IH]; simpl.
  - destruct (String.eqb_spec k0 k); [contradiction|reflexivity].
  - destruct (String.eqb_spec k k') as [->|Hne']; simpl.
    + destruct (String.eqb_spec k0 k'); [contradiction|reflexivity].
    + rewrite IH. reflexivity.
Qed.

Lemma dict_count_absent d k : ~ In k (dict_keys d) -> dict_count d k = 0.
Proof.
  unfold dict_count. induction d as [|[k' v'] d IH]; simpl; intros Hnin.
  - reflexivity.
  - destruct (String.eqb_spec k k') as [->|Hne].
    + exfalso. apply Hnin. left. reflexivity.
    + apply IH. intros H. apply Hnin. right. exact H.
Qed.

Lemma dict_count_set d k v :
  NoDup (dict_keys d) -> dict_count (dict_set d k v) k = 1.
Proof.
  induction d as [|[k' v'] d IH]; simpl; intros Hnd.
  - unfold dict_count. simpl. rewrite String.eqb_refl. reflexivity.
  - inversion Hnd as [|? ? Hnin Hnd']; subst.
    destruct (String.eqb_spec k k') as [->|Hne].
    + unfold dict_count. simpl. rewrite String.eqb_refl. simpl.
      f_equal. apply (dict_count_absent d k' Hnin).
    + unfold dict_count. simpl.
      destruct (String.eqb_spec k k'); [contradiction|].
      apply IH. exact Hnd'.
Qed.

End DictFacts.

(** ** The dispatcher: what a handler leaves alone *)

Section Frame.
Import Server.

Lemma attempts_snoc (h : list event) (ev : event) :
  attempts (h ++ [ev]) = (attempts h ++ if is_attempt ev then [ev] else [])%list.
Proof.
  unfold attempts. rewrite filter_app. simpl.
  destruct (is_attempt ev); reflexivity.
Qed.

Lemma backend_calls_snoc (h : list event) (ev : event) :
  backend_calls (h ++ [ev])
  = (backend_calls h ++ if is_query ev then [ev] else [])%list.
Proof.
  unfold backend_calls. rewrite filter_app. simpl.
  destruct (is_query ev); reflexivity.
Qed.

Lemma steady_refl st : steady st st.
Proof.
  repeat split. intros H. exact H.
Qed.

Lemma steady_trans st1 st2 st3 :
  steady st1 st2 -> steady st2 st3 -> steady st1 st3.
Proof.
  intros (Hc & Ha & Hn) (Hc' & Ha' & Hn').
  repeat split; [congruence|congruence|]. intros H. apply Hn', Hn, H.
Qed.

Lemma steady_record st ev : is_attempt ev = false -> steady st (record ev st).
Proof.
  intros Hev. repeat split; simpl.
  - rewrite attempts_snoc, Hev, app_nil_r. reflexivity.
  - intros H. exact H.
Qed.

Lemma keeps_ret {A} (a : A) : keeps (ret a).
Proof.
  intros st. apply steady_refl.
Qed.

Lemma keeps_lift {A} (x : except A) : keeps (lift x).
Proof.
  intros st. apply steady_refl.
Qed.

Lemma keeps_bind {A B} (m : M A) (k : A -> M B) :
  keeps m -> (forall a, keeps (k a)) -> keeps (mbind m k).
Proof.
  intros Hm Hk st. unfold mbind.
  specialize (Hm st). destruct (m st) as [[a|e] st1]; simpl in *.
  - eapply steady_trans; [exact Hm|apply Hk].
  - exact Hm.
Qed.

Lemma keeps_try {A} (body : M A) (handler : exn -> M A) :
  keeps body -> (forall e, keeps (handler e)) -> keeps (try_ body handler).
Proof.
  intros Hb Hh st. unfold try_.
  specialize (Hb st). destruct (body st) as [[a|e] st1]; simpl in *.
  - exact Hb.
  - eapply steady_trans; [exact Hb|apply Hh].
Qed.

Lemma keeps_call_query_workspace W ws q ts :
  keeps (call_query_workspace W ws q ts).
Proof.
  intros st. apply steady_record. reflexivity.
Qed.

Lemma keeps_open_file W filename : keeps (open_file W filename).
Proof.
  intros st. apply steady_record. reflexivity.
Qed.

Lemma keeps_write_file filename content : keeps (write_file filename content).
Proof.
  intros st. apply steady_record. reflexivity.
Qed.

Lemma keeps_get_saved_queries : keeps get_saved_queries.
Proof.
  intros st. apply steady_refl.
Qed.

Lemma keeps_store_set name_key data : keeps (store_set name_key data).
Proof.
  intros st. repeat split; simpl. apply dict_set_NoDup.
Qed.

Lemma keeps_arg arguments k : keeps (arg arguments k).
Proof.
  apply keeps_lift.
Qed.

Create HintDb keeps_db.
#[local] Hint Resolve keeps_ret keeps_lift keeps_arg keeps_call_query_workspace
  keeps_open_file keeps_write_file keeps_get_saved_queries keeps_store_set
  : keeps_db.

Ltac keeps_step :=
  match goal with
  | |- keeps (mbind _ _) => apply keeps_bind; [|intros ?]
  | |- keeps (try_ _ _) => apply keeps_try; [|intros ?]
  | |- keeps (match ?x with _ => _ end) => destruct x
  | |- keeps _ => solve [auto with keeps_db]
  end.

Lemma dispatch_keeps W L name arguments : keeps (dispatch W L name arguments).
Proof.
  unfold dispatch.
  repeat match goal with
         | |- context [String.eqb name ?s] => destruct (String.eqb name s)
         end;
    unfold query_logs, save_query, list_saved_queries, run_saved_query,
      validate_query, list_tables, get_table_schema, export_results;
    repeat keeps_step.
Qed.

End Frame.

(** ** The dispatcher: the client handle *)

Section Client.
Import Server.
Variable W : world.
Variable L : stdlib.

Lemma ensure_client_ready st c :
  logs_client st = Some c -> ensure_client W st = (Return None, st).
Proof.
  intros Hc. unfold ensure_client. rewrite Hc. reflexivity.
Qed.

Lemma ensure_client_built st c :
  logs_client st = None ->
  new_client W (history st) = Return c ->
  ensure_client W st
  = (Return None,
     {| logs_client := Some c;
        saved_queries := saved_queries st;
        history := (history st ++ [NewClient true])%list |}).
Proof.
  intros Hc Hnew. unfold ensure_client. rewrite Hc.
  unfold try_, mbind, construct_client. rewrite Hnew. reflexivity.
Qed.

Lemma ensure_client_failed st e :
  logs_client st = None ->
  new_client W (history st) = Raise e ->
  ensure_client W st
  = (Return (Some ("Failed to initialize Azure client: " ++ str_exn e)),
     record (NewClient false) st).
Proof.
  intros Hc Hnew. unfold ensure_client. rewrite Hc.
  unfold try_, mbind, construct_client. rewrite Hnew. reflexivity.
Qed.

Lemma handle_call_tool_ready name arguments st c :
  logs_client st = Some c ->
  handle_call_tool W L name arguments st = dispatch W L name arguments st.
Proof.
  intros Hc. unfold handle_call_tool, mbind.
  rewrite (ensure_client_ready st c Hc). reflexivity.
Qed.

Lemma handle_call_tool_built name arguments st c :
  logs_client st = None ->
  new_client W (history st) = Return c ->
  handle_call_tool W L name arguments st
  = dispatch W L name arguments
      {| logs_client := Some c;
         saved_queries := saved_queries st;
         history := (history st ++ [NewClient true])%list |}.
Proof.
  intros Hc Hnew. unfold handle_call_tool, mbind.
  rewrite (ensure_client_built st c Hc Hnew). reflexivity.
Qed.

Lemma handle_call_tool_failed name arguments st e :
  logs_client st = None ->
  new_client W (history st) = Raise e ->
  handle_call_tool W L name arguments st
  = (Return ("Failed to initialize Azure client: " ++ str_exn e),
     record (NewClient false) st).
Proof.
  intros Hc Hnew. unfold handle_call_tool, mbind.
  rewrite (ensure_client_failed st e Hc Hnew). reflexivity.
Qed.

Lemma construction_log_step name arguments st :
  construction_log st ->
  construction_log (snd (handle_call_tool W L name arguments st)).
Proof.
  intros [k Hk]. destruct (logs_client st) as [c|] eqn:Hc.
  - rewrite (handle_call_tool_ready name arguments st c Hc).
    destruct (dispatch_keeps W L name arguments st) as (Hc' & Ha & _).
    exists k. rewrite Hc', Ha, Hc. exact Hk.
  - destruct (new_client W (history st)) as [c|e] eqn:Hnew.
    + rewrite (handle_call_tool_built name arguments st c Hc Hnew).
      match goal with
      | |- construction_log (snd (dispatch _ _ _ _ ?s)) =>
          destruct (dispatch_keeps W L name arguments s) as (Hc' & Ha & _)
      end.
      exists k. rewrite Hc', Ha. simpl.
      rewrite attempts_snoc, Hk, app_nil_r. reflexivity.
    + rewrite (handle_call_tool_failed name arguments st e Hc Hnew).
      exists (S k). simpl. rewrite Hc.
      rewrite attempts_snoc, Hk, !app_nil_r. simpl.
      rewrite repeat_cons. reflexivity.
Qed.

Lemma store_step name arguments st :
  NoDup (dict_keys (saved_queries st)) ->
  NoDup (dict_keys (saved_queries (snd (handle_call_tool W L name arguments st)))).
Proof.
  intros Hnd. destruct (logs_client st) as [c|] eqn:Hc.
  - rewrite (handle_call_tool_ready name arguments st c Hc).
    destruct (dispatch_keeps W L name arguments st) as (_ & _ & Hs).
    apply Hs, Hnd.
  - destruct (new_client W (history st)) as [c|e] eqn:Hnew.
    + rewrite (handle_call_tool_built name arguments st c Hc Hnew).
      match goal with
      | |- context [dispatch _ _ _ _ ?s] =>
          destruct (dispatch_keeps W L name arguments s) as (_ & _ & Hs)
      end.
      apply Hs. exact Hnd.
    + rewrite (handle_call_tool_failed name arguments st e Hc Hnew).
      exact Hnd.
Qed.

(** What every invocation preserves, every run preserves. *)
Lemma run_invariant (P : state -> Prop) :
  (forall name arguments st,
      P st -> P (snd (handle_call_tool W L name arguments st))) ->
  forall calls st, P st -> P (snd (run W L calls st)).
Proof.
  intros Hstep calls. induction calls as [|[name arguments] calls IH];
    intros st HP; simpl.
  - exact HP.
  - specialize (Hstep name arguments st HP).
    destruct (handle_call_tool W L name arguments st) as [r st1].
    specialize (IH st1 Hstep).
    destruct (run W L calls st1) as [rs st2]. exact IH.
Qed.

End Client.

(** ** The dispatcher: the claims *)

Section Dispatch.
Import Server.

Lemma contains_self (needle : string) : contains needle needle = true.
Proof.
  assert (H : String.prefix needle needle = true).
  { induction needle as [|c r IH]; simpl; [reflexivity|].
    destruct (ascii_dec c c); [exact IH|contradiction]. }
  destruct needle; simpl in *; [reflexivity|].
  rewrite H. reflexivity.
Qed.

Lemma contains_app_r (needle s t : string) :
  contains needle t = true -> contains needle (s ++ t) = true.
Proof.
  intros H. induction s as [|c s IH]; simpl.
  - exact H.
  - rewrite IH. apply orb_true_r.
Qed.

Lemma not_found_text (name : string) :
  contains "not found" ("Query '" ++ name ++ "' not found") = true.
Proof.
  apply contains_app_r. apply contains_app_r.
  apply (contains_app_r "not found" "' " "not found").
  apply contains_self.
Qed.

Lemma backend_calls_record_attempt st built :
  backend_calls (history (record (NewClient built) st))
  = backend_calls (history st).
Proof.
  simpl. rewrite backend_calls_snoc. simpl. rewrite app_nil_r. reflexivity.
Qed.

(** [run_saved_query] on a name the store does not hold. *)
Lemma run_saved_query_unknown W L arguments st name :
  dict_get (fields arguments) "name" = Some name ->
  dict_mem (saved_queries st) name = false ->
  run_saved_query W L arguments st
  = match dict_get (fields arguments) "workspace_id" with
    | Some _ => (Return ("Query '" ++ name ++ "' not found"), st)
    | None => (Raise (KeyError "workspace_id"), st)
    end.
Proof.
  intros Hname Hmem.
  unfold run_saved_query, arg, lift, mbind, dict_item, get_saved_queries.
  destruct (dict_get (fields arguments) "workspace_id") as [ws|];
    [|reflexivity].
  rewrite Hname, Hmem. reflexivity.
Qed.

(** C1, as the specification words it, fails.  The claim allows one
    construction attempt per run at most: none after a success, none
    after a failure.  With credentials that cannot be found, the second
    invocation attempts the construction again. *)
Lemma C1_failed_construction_is_retried :
  ~ (forall (W : world) (L : stdlib) (calls : list (string * arguments)),
        List.length (attempts (history (snd (run W L calls initial)))) <= 1).
Proof.
  intros H.
  specialize (H {| new_client := fun _ => Raise (SdkError "no credentials");
                   query_workspace := fun _ _ _ _ => Return [];
                   open_write := fun _ _ => Return tt |}
                {| json_dumps_default_str := fun _ => EmptyString;
                   csv_DictWriter := fun _ _ => Return EmptyString |}
                [("list_saved_queries", {| fields := []; limit_arg := None |});
                 ("list_saved_queries", {| fields := []; limit_arg := None |})]).
  vm_compute in H. lia.
Qed.

(** C1, amended: for every sequence of tool invocations in one process
    run, the construction attempts are a series of failures followed by
    at most one success, and the client handle is set exactly when the
    success is there; an invocation that finds the handle set attempts
    nothing; a failed construction is returned by that invocation as
    error text and leaves the handle unset; an invocation that finds the
    handle unset always attempts the construction, so a failure is tried
    again by the next invocation. *)
Theorem C1_client_construction :
  forall (W : world) (L : stdlib),
    (forall calls, construction_log (snd (run W L calls initial)))
    /\ (forall name arguments st c,
          logs_client st = Some c ->
          let st' := snd (handle_call_tool W L name arguments st) in
          logs_client st' = Some c
          /\ attempts (history st') = attempts (history st))
    /\ (forall name arguments st e,
          logs_client st = None ->
          new_client W (history st) = Raise e ->
          handle_call_tool W L name arguments st
          = (Return ("Failed to initialize Azure client: " ++ str_exn e),
             record (NewClient false) st))
    /\ (forall name arguments st,
          logs_client st = None ->
          exists built,
            attempts (history (snd (handle_call_tool W L name arguments st)))
            = (attempts (history st) ++ [NewClient built])%list).
Proof.
  intros W L. split; [|split; [|split]].
  - intros calls. apply run_invariant.
    + intros name arguments st. apply construction_log_step.
    + exists 0. reflexivity.
  - intros name arguments st c Hc st'. unfold st'.
    rewrite (handle_call_tool_ready W L name arguments st c Hc).
    destruct (dispatch_keeps W L name arguments st) as (Hc' & Ha & _).
    split; [congruence|exact Ha].
  - intros name arguments st e Hc Hnew.
    apply handle_call_tool_failed; assumption.
  - intros name arguments st Hc.
    destruct (new_client W (history st)) as [c|e] eqn:Hnew.
    + exists true.
      rewrite (handle_call_tool_built W L name arguments st c Hc Hnew).
      match goal with
      | |- context [dispatch _ _ _ _ ?s] =>
          destruct (dispatch_keeps W L name arguments s) as (_ & Ha & _)
      end.
      rewrite Ha. simpl. rewrite attempts_snoc. reflexivity.
    + exists false.
      rewrite (handle_call_tool_failed W L name arguments st e Hc Hnew).
      simpl. rewrite attempts_snoc. reflexivity.
Qed.

(** Credentials missing at the first invocation and found at the
    second. *)
Lemma C1_client_construction_witness :
  let W := {| new_client := fun h =>
                match h with
                | [] => Raise (SdkError "no credentials")
                | _ :: _ => Return LogsQueryClient
                end;
              query_workspace := fun _ _ _ _ => Return [];
              open_write := fun _ _ => Return tt |} in
  let L := {| json_dumps_default_str := fun _ => EmptyString;
              csv_DictWriter := fun _ _ => Return EmptyString |} in
  let no_arguments := {| fields := []; limit_arg := None |} in
  handle_call_tool W L "list_saved_queries" no_arguments initial
  = (Return "Failed to initialize Azure client: no credentials",
     record (NewClient false) initial)
  /\ attempts
       (history (snd (handle_call_tool W L "list_saved_queries" no_arguments
                        (record (NewClient false) initial))))
     = [NewClient false; NewClient true].
Proof.
  intros W L no_arguments.
  destruct (C1_client_construction W L) as (_ & _ & Hfail & Hretry).
  split.
  - apply (Hfail "list_saved_queries" no_arguments initial
                 (SdkError "no credentials")); reflexivity.
  - destruct (Hretry "list_saved_queries" no_arguments
                     (record (NewClient false) initial) eq_refl)
      as [built Hb].
    rewrite Hb. vm_compute in Hb. vm_compute.
    injection Hb as <-. reflexivity.
Defined.

(** C10: construction is attempted before the tool name is looked at,
    so when the handle is unset and the construction fails, every
    invocation, whatever its tool name and arguments (the local tools
    and the unknown names among them), returns the
    "Failed to initialize Azure client" text and does nothing else;
    with the handle set the same invocation goes to its own branch. *)
Theorem C10_construction_failure_preempts_every_tool :
  forall (W : world) (L : stdlib) (name : string) (arguments : arguments)
         (st : state) (e : exn),
    logs_client st = None ->
    new_client W (history st) = Raise e ->
    handle_call_tool W L name arguments st
    = (Return ("Failed to initialize Azure client: " ++ str_exn e),
       record (NewClient false) st)
    /\ saved_queries (snd (handle_call_tool W L name arguments st))
       = saved_queries st
    /\ forall c,
        handle_call_tool W L name arguments
          {| logs_client := Some c;
             saved_queries := saved_queries st;
             history := history st |}
        = dispatch W L name arguments
            {| logs_client := Some c;
               saved_queries := saved_queries st;
               history := history st |}.
Proof.
  intros W L name arguments st e Hc Hnew.
  rewrite (handle_call_tool_failed W L name arguments st e Hc Hnew).
  split; [reflexivity|]. split; [reflexivity|].
  intros c. apply (handle_call_tool_ready W L name arguments _ c). reflexivity.
Qed.

(** Three local tools and an unknown name, without credentials. *)
Lemma C10_construction_failure_preempts_every_tool_witness :
  let W := {| new_client := fun _ => Raise (SdkError "no credentials");
              query_workspace := fun _ _ _ _ => Return [];
              open_write := fun _ _ => Return tt |} in
  let L := {| json_dumps_default_str := fun _ => EmptyString;
              csv_DictWriter := fun _ _ => Return EmptyString |} in
  let failed :=
    (Return "Failed to initialize Azure client: no credentials",
     record (NewClient false) initial) in
  handle_call_tool W L "validate_query"
    {| fields := [("query", "AppEvents | take 1")]; limit_arg := None |} initial
  = failed
  /\ handle_call_tool W L "save_query"
       {| fields := [("name", "q1"); ("query", "AppEvents")];
          limit_arg := None |} initial
     = failed
  /\ handle_call_tool W L "list_saved_queries"
       {| fields := []; limit_arg := None |} initial
     = failed
  /\ handle_call_tool W L "no_such_tool"
       {| fields := []; limit_arg := None |} initial
     = failed.
Proof.
  intros W L failed.
  split; [|split; [|split]];
    apply (proj1 (C10_construction_failure_preempts_every_tool
                    W L _ _ initial (SdkError "no credentials")
                    eq_refl eq_refl)).
Defined.

End Dispatch.

(** ** The saved-query store *)

Section Store.
Import Server.

Lemma save_query_saves arguments st name q :
  dict_get (fields arguments) "name" = Some name ->
  dict_get (fields arguments) "query" = Some q ->
  save_query arguments st
  = (Return ("Query '" ++ name ++ "' saved successfully"),
     {| logs_client := logs_client st;
        saved_queries :=
          dict_set (saved_queries st) name
                   {| query := q;
                      description :=
                        arg_get arguments "description" EmptyString |};
        history := history st |}).
Proof.
  intros Hname Hq.
  unfold save_query, arg, lift, mbind, dict_item, store_set, ret.
  rewrite Hname, Hq. reflexivity.
Qed.

(** C7: in every run the store holds at most one entry per name; a
    save puts its query under its name whatever was there, the entry
    is then the only one under that name, and the other names are left
    as they were; saving ["q1"] twice leaves one entry under ["q1"],
    holding the second query. *)
Theorem C7_saved_query_store :
  forall (W : world) (L : stdlib),
    (forall calls,
        NoDup (dict_keys (saved_queries (snd (run W L calls initial)))))
    /\ (forall st c arguments name q,
          logs_client st = Some c ->
          dict_get (fields arguments) "name" = Some name ->
          dict_get (fields arguments) "query" = Some q ->
          let data :=
            {| query := q;
               description := arg_get arguments "description" EmptyString |} in
          let out := handle_call_tool W L "save_query" arguments st in
          fst out = Return ("Query '" ++ name ++ "' saved successfully")
          /\ saved_queries (snd out) = dict_set (saved_queries st) name data
          /\ dict_get (saved_queries (snd out)) name = Some data
          /\ (NoDup (dict_keys (saved_queries st)) ->
              dict_count (saved_queries (snd out)) name = 1)
          /\ (forall other, other <> name ->
                dict_get (saved_queries (snd out)) other
                = dict_get (saved_queries st) other))
    /\ (forall c first_query second_query,
          new_client W [] = Return c ->
          saved_queries
            (snd (run W L
                    [("save_query",
                      {| fields := [("name", "q1"); ("query", first_query)];
                         limit_arg := None |});
                     ("save_query",
                      {| fields := [("name", "q1"); ("query", second_query)];
                         limit_arg := None |})]
                    initial))
          = [("q1", {| query := second_query; description := EmptyString |})]).
Proof.
  intros W L. split; [|split].
  - intros calls.
    apply (run_invariant W L (fun st => NoDup (dict_keys (saved_queries st)))).
    + intros name arguments st. apply store_step.
    + constructor.
  - intros st c arguments name q Hc Hname Hq data out. unfold out.
    rewrite (handle_call_tool_ready W L _ arguments st c Hc).
    change (dispatch W L "save_query" arguments)
      with (save_query arguments).
    rewrite (save_query_saves arguments st name q Hname Hq).
    cbn [fst snd saved_queries]. fold data.
    split; [reflexivity|]. split; [reflexivity|].
    split; [apply dict_get_set_same|].
    split; [apply dict_count_set|].
    intros other Hne. apply dict_get_set_other. exact Hne.
  - intros c first_query second_query Hnew.
    cbn [run].
    rewrite (handle_call_tool_built W L _ _ initial c eq_refl Hnew).
    change (dispatch W L "save_query") with save_query.
    erewrite save_query_saves by reflexivity.
    erewrite handle_call_tool_ready by reflexivity.
    change (dispatch W L "save_query") with save_query.
    erewrite save_query_saves by reflexivity.
    reflexivity.
Qed.

(** Two saves of ["q1"], from the start and over an older entry. *)
Lemma C7_saved_query_store_witness :
  let W := {| new_client := fun _ => Return LogsQueryClient;
              query_workspace := fun _ _ _ _ => Return [];
              open_write := fun _ _ => Return tt |} in
  let L := {| json_dumps_default_str := fun _ => EmptyString;
              csv_DictWriter := fun _ _ => Return EmptyString |} in
  saved_queries
    (snd (run W L
            [("save_query",
              {| fields := [("name", "q1"); ("query", "AppEvents | take 1")];
                 limit_arg := None |});
             ("save_query",
              {| fields := [("name", "q1"); ("query", "AppEvents | take 2")];
                 limit_arg := None |})]
            initial))
  = [("q1", {| query := "AppEvents | take 2"; description := EmptyString |})]
  /\ saved_queries
       (snd (handle_call_tool W L "save_query"
               {| fields := [("name", "q1"); ("query", "AppEvents | take 2")];
                  limit_arg := None |}
               {| logs_client := Some LogsQueryClient;
                  saved_queries :=
                    [("q1", {| query := "AppEvents | take 1";
                               description := "first" |})];
                  history := [NewClient true] |}))
     = [("q1", {| query := "AppEvents | take 2"; description := EmptyString |})].
Proof.
  intros W L.
  destruct (C7_saved_query_store W L) as (_ & Hsave & Htwice).
  split.
  - apply (Htwice LogsQueryClient). reflexivity.
  - match goal with
    | |- saved_queries (snd (handle_call_tool _ _ _ ?a ?s)) = _ =>
        destruct (Hsave s LogsQueryClient a "q1" "AppEvents | take 2"
                        eq_refl eq_refl eq_refl)
          as (_ & Hstore & _)
    end.
    rewrite Hstore. reflexivity.
Defined.

(** C8, as the specification words it, fails: the dispatcher builds the
    client first, and when that fails the text returned is the
    construction failure, whatever the store holds. *)
Lemma C8_construction_failure_hides_not_found :
  ~ (forall (W : world) (L : stdlib) (st : state) (arguments : arguments)
            (name workspace_id : string),
        dict_get (fields arguments) "name" = Some name ->
        dict_get (fields arguments) "workspace_id" = Some workspace_id ->
        dict_mem (saved_queries st) name = false ->
        let out := handle_call_tool W L "run_saved_query" arguments st in
        (exists text, fst out = Return text /\ contains "not found" text = true)
        /\ backend_calls (history (snd out)) = backend_calls (history st)).
Proof.
  intros H.
  specialize (H {| new_client := fun _ => Raise (SdkError "no credentials");
                   query_workspace := fun _ _ _ _ => Return [];
                   open_write := fun _ _ => Return tt |}
                {| json_dumps_default_str := fun _ => EmptyString;
                   csv_DictWriter := fun _ _ => Return EmptyString |}
                initial
                {| fields := [("workspace_id", "w"); ("name", "q1")];
                   limit_arg := None |}
                "q1" "w" eq_refl eq_refl eq_refl).
  destruct H as [[text [Htext Hfound]] _].
  vm_compute in Htext. injection Htext as <-.
  vm_compute in Hfound. discriminate Hfound.
Qed.

(** C8, amended: for every store state in which the given name was
    never saved, dispatching [run_saved_query] with that name performs
    no backend query-execution call; when moreover the client handle is
    set, or its construction succeeds, and the arguments carry
    [workspace_id], the text returned is ["Query '<name>' not found"],
    which contains ["not found"]. *)
Theorem C8_run_saved_query_unknown_name :
  forall (W : world) (L : stdlib) (st : state) (arguments : arguments)
         (name : string),
    dict_get (fields arguments) "name" = Some name ->
    dict_mem (saved_queries st) name = false ->
    let out := handle_call_tool W L "run_saved_query" arguments st in
    backend_calls (history (snd out)) = backend_calls (history st)
    /\ (forall workspace_id,
          dict_get (fields arguments) "workspace_id" = Some workspace_id ->
          (logs_client st <> None
           \/ exists c, new_client W (history st) = Return c) ->
          fst out = Return ("Query '" ++ name ++ "' not found")
          /\ contains "not found" ("Query '" ++ name ++ "' not found") = true).
Proof.
  intros W L st arguments name Hname Hmem out. unfold out.
  destruct (logs_client st) as [c|] eqn:Hc.
  - rewrite (handle_call_tool_ready W L _ arguments st c Hc).
    change (dispatch W L "run_saved_query" arguments)
      with (run_saved_query W L arguments).
    rewrite (run_saved_query_unknown W L arguments st name Hname Hmem).
    split.
    + destruct (dict_get (fields arguments) "workspace_id"); reflexivity.
    + intros ws Hws _. rewrite Hws. split; [reflexivity|apply not_found_text].
  - destruct (new_client W (history st)) as [c|e] eqn:Hnew.
    + rewrite (handle_call_tool_built W L _ arguments st c Hc Hnew).
      change (dispatch W L "run_saved_query" arguments)
        with (run_saved_query W L arguments).
      match goal with
      | |- context [run_saved_query _ _ _ ?s] =>
          rewrite (run_saved_query_unknown W L arguments s name Hname Hmem)
      end.
      split.
      * destruct (dict_get (fields arguments) "workspace_id"); cbn [snd history];
          rewrite backend_calls_snoc; simpl; apply app_nil_r.
      * intros ws Hws _. rewrite Hws.
        split; [reflexivity|apply not_found_text].
    + rewrite (handle_call_tool_failed W L _ arguments st e Hc Hnew).
      split.
      * apply backend_calls_record_attempt.
      * intros ws _ [Hset|[c Hbuilt]]; [contradiction|discriminate].
Qed.

(** A name never saved, with credentials at hand. *)
Lemma C8_run_saved_query_unknown_name_witness :
  let W := {| new_client := fun _ => Return LogsQueryClient;
              query_workspace := fun _ _ _ _ => Return [];
              open_write := fun _ _ => Return tt |} in
  let L := {| json_dumps_default_str := fun _ => EmptyString;
              csv_DictWriter := fun _ _ => Return EmptyString |} in
  let out :=
    handle_call_tool W L "run_saved_query"
      {| fields := [("workspace_id", "w"); ("name", "missing")];
         limit_arg := None |}
      initial in
  fst out = Return "Query 'missing' not found"
  /\ backend_calls (history (snd out)) = [].
Proof.
  intros W L out.
  destruct (C8_run_saved_query_unknown_name
              W L initial
              {| fields := [("workspace_id", "w"); ("name", "missing")];
                 limit_arg := None |}
              "missing" eq_refl eq_refl) as [Hquiet Htext].
  split.
  - apply (Htext "w" eq_refl). right. exists LogsQueryClient. reflexivity.
  - exact Hquiet.
Defined.

End Store.

(** ** The alert manager *)

Section AlertManagerContract.
Import Alerts.

Lemma error_result_tagged (e : exn) :
  exists r, error_result e = Return r /\ tagged_result r.
Proof.
  eexists. split; [reflexivity|].
  right. split; [reflexivity|]. eexists. reflexivity.
Qed.

(** A guarded body returns a tagged result as soon as every value the
    body itself returns is tagged [success]. *)
Lemma catch_tagged (body : except pyval) :
  (forall r, body = Return r -> getitem r "status" = Return (PStr "success")) ->
  exists r, catch body error_result = Return r /\ tagged_result r.
Proof.
  intros Hbody. destruct body as [r|e]; simpl.
  - exists r. split; [reflexivity|]. left. apply Hbody. reflexivity.
  - apply error_result_tagged.
Qed.

(** C9: whatever the arguments and whatever the management client
    answers or raises, each of [create_log_alert], [list_alerts] and
    [get_alert_history] returns, without raising, a result whose
    [status] is ["success"] or ["error"], the latter with a message. *)
Theorem C9_alert_manager_returns_tagged_results :
  forall self : AlertManager,
    (forall resource_group alert_name workspace_id query threshold,
        exists r,
          create_log_alert self resource_group alert_name workspace_id
                           query threshold
          = Return r
          /\ tagged_result r)
    /\ (forall resource_group,
          exists r, list_alerts self resource_group = Return r
                    /\ tagged_result r)
    /\ (forall resource_group alert_name days,
          exists r,
            get_alert_history self resource_group alert_name days = Return r
            /\ tagged_result r).
Proof.
  intros self. split; [|split].
  - intros resource_group alert_name workspace_id query threshold.
    unfold create_log_alert. apply catch_tagged.
    intros r Hr.
    destruct (create_or_update (client self) _ _ _) as [id|e];
      simpl in Hr; [|discriminate].
    injection Hr as <-. reflexivity.
  - intros resource_group. unfold list_alerts. apply catch_tagged.
    intros r Hr.
    match type of Hr with
    | bind ?m _ = _ => destruct m as [alerts|e]
    end; simpl in Hr; [|discriminate].
    injection Hr as <-. reflexivity.
  - intros resource_group alert_name days.
    unfold get_alert_history. apply catch_tagged.
    intros r Hr.
    destruct (activity_logs_list (client self) _) as [events|e];
      simpl in Hr; [|discriminate].
    destruct (mapM (history_entry alert_name) events) as [entries|e];
      simpl in Hr; [|discriminate].
    injection Hr as <-. reflexivity.
Qed.

End AlertManagerContract.

(** * Further properties of the code *)

(** ** The formatter *)

Section FormatterMore.
Import Server.

Lemma limited_kept (rs : list row) (limit : Z) :
  limited rs limit = firstn (kept_count (List.length rs) limit) rs.
Proof.
  unfold limited, slice_to, kept_count.
  destruct (Z.gtb_spec (Z.of_nat (List.length rs)) limit) as [Hgt|Hle].
  - destruct (Z.leb_spec 0 limit) as [Hpos|Hneg]; [|reflexivity].
    rewrite Nat.min_l by lia. reflexivity.
  - destruct (Z.leb_spec 0 limit) as [Hpos|Hneg]; [|lia].
    rewrite Nat.min_r by lia. rewrite firstn_all. reflexivity.
Qed.

(** X1: the rows kept, for every limit: the first [min(limit, n)] of
    [n] rows when the limit is not negative, and all but the last
    [-limit] rows (none when there are not that many) when it is. *)
Theorem X1_rows_kept_for_every_limit :
  forall (rs : list row) (limit : Z),
    limited rs limit = firstn (kept_count (List.length rs) limit) rs
    /\ List.length (limited rs limit) = kept_count (List.length rs) limit
    /\ kept_count (List.length rs) limit <= List.length rs.
Proof.
  intros rs limit.
  assert (Hle : kept_count (List.length rs) limit <= List.length rs).
  { unfold kept_count. destruct (Z.leb_spec 0 limit); lia. }
  split; [apply limited_kept|]. split; [|exact Hle].
  rewrite limited_kept, length_firstn. lia.
Qed.

(** X2: with at least one row and a limit that keeps none, the table
    and csv modes return the empty text and the other modes the JSON of
    an empty list: never the "No results found" text of an empty
    input. *)
Theorem X2_no_row_kept :
  forall (L : stdlib) (rs : list row) (limit : Z),
    rs <> [] ->
    kept_count (List.length rs) limit = 0 ->
    format_results L rs (Some "table") (Some limit) = Return EmptyString
    /\ format_results L rs (Some "csv") (Some limit) = Return EmptyString
    /\ format_results L rs (Some "json") (Some limit)
       = Return (json_dumps_default_str L (PList []))
    /\ format_results L rs None (Some limit)
       = Return (json_dumps_default_str L (PList [])).
Proof.
  intros L rs limit Hne H0.
  destruct rs as [|r rs']; [contradiction|].
  unfold format_results. cbn [or_default].
  rewrite limited_kept, H0. cbn [firstn].
  repeat split; reflexivity.
Qed.

(** Limit 0, and a limit below minus the number of rows. *)
Lemma X2_no_row_kept_witness :
  let L := {| json_dumps_default_str := fun _ => "[]";
              csv_DictWriter := fun _ _ => Return "n" |} in
  format_results L [[("n", VInt 1)]; [("n", VInt 2)]] (Some "table") (Some 0%Z)
  = Return EmptyString
  /\ format_results L [[("n", VInt 1)]; [("n", VInt 2)]] (Some "csv")
       (Some (-5)%Z)
     = Return EmptyString.
Proof.
  intros L. split.
  - refine (proj1 (X2_no_row_kept L _ 0%Z _ _)); [discriminate|reflexivity].
  - refine (proj1 (proj2 (X2_no_row_kept L _ (-5)%Z _ _)));
      [discriminate|reflexivity].
Defined.

(** X3: the formatter raises in csv mode only, and then what the csv
    writer raised on the rows kept; in every other mode, and on every
    input, it returns a text. *)
Theorem X3_only_csv_raises :
  forall (L : stdlib) (rs : list row) (format_type : option string)
         (limit : option Z) (e : exn),
    format_results L rs format_type limit = Raise e ->
    format_type = Some "csv"
    /\ exists first others,
        limited rs (or_default limit 1000%Z) = first :: others
        /\ csv_DictWriter L (dict_keys first) (first :: others) = Raise e.
Proof.
  intros L rs format_type limit e H.
  unfold format_results in H.
  destruct rs as [|r rs']; [discriminate|].
  unfold render in H.
  destruct (String.eqb_spec (or_default format_type "json") "csv") as [Hcsv|_].
  - split.
    + destruct format_type as [ft|]; cbn [or_default] in Hcsv;
        [rewrite Hcsv; reflexivity|discriminate].
    + destruct (limited (r :: rs') (or_default limit 1000%Z)) as [|k ks];
        [discriminate|].
      exists k, ks. split; [reflexivity|exact H].
  - destruct (String.eqb (or_default format_type "json") "table").
    + destruct (limited (r :: rs') (or_default limit 1000%Z)) as [|k ks];
        [discriminate|].
      rewrite table_lines_described in H. discriminate.
    + discriminate.
Qed.

(** A writer that refuses a row with a key outside the header. *)
Lemma X3_only_csv_raises_witness :
  let L := {| json_dumps_default_str := fun _ => EmptyString;
              csv_DictWriter := fun _ _ =>
                Raise (ValueError "dict contains fields not in fieldnames: 'b'") |} in
  csv_DictWriter L ["a"] [[("a", VInt 1)]; [("b", VInt 2)]]
  = Raise (ValueError "dict contains fields not in fieldnames: 'b'").
Proof.
  intros L.
  destruct (X3_only_csv_raises L [[("a", VInt 1)]; [("b", VInt 2)]]
              (Some "csv") None
              (ValueError "dict contains fields not in fieldnames: 'b'")
              eq_refl) as [_ [first [others [Hk Hraise]]]].
  injection Hk as <- <-. exact Hraise.
Defined.

Lemma length_join (sep : string) (parts : list string) :
  String.length (join sep parts)
  = list_sum (map String.length parts)
    + (List.length parts - 1) * String.length sep.
Proof.
  unfold join. induction parts as [|p parts IH]; [reflexivity|].
  destruct parts as [|p' parts'].
  - simpl. lia.
  - change (String.concat sep (p :: p' :: parts'))
      with (p ++ sep ++ String.concat sep (p' :: parts')).
    rewrite !length_string_app, IH. cbn [map list_sum List.length fold_right].
    rewrite !Nat.sub_succ, !Nat.sub_0_r. cbn [Nat.mul]. lia.
Qed.

Lemma length_padded_line (f : string -> string) (w : string -> nat)
      (headers : list string) :
  (forall h, String.length (f h) = w h) ->
  String.length (join " | " (map f headers))
  = list_sum (map w headers) + 3 * (List.length headers - 1).
Proof.
  intros Hf. rewrite length_join, map_map, length_map.
  rewrite (map_ext _ w Hf). cbn [String.length]. lia.
Qed.

(** X4: the table is aligned: when at least one row is kept, the output
    is the header, the dashes and one line per row kept, and all these
    lines have the same length, the column widths plus three
    characters between two columns. *)
Theorem X4_table_lines_aligned :
  forall (L : stdlib) (rs : list row) (limit : option Z)
         (first : row) (others : list row),
    limited rs (or_default limit 1000%Z) = first :: others ->
    exists lines,
      format_results L rs (Some "table") limit = Return (join newline lines)
      /\ List.length lines = 2 + List.length (first :: others)
      /\ Forall (fun line =>
                   String.length line
                   = table_width (dict_keys first) (first :: others))
                lines.
Proof.
  intros L rs limit first others Hkept.
  exists (described_lines pad_right (dict_keys first) (first :: others)).
  split; [|split].
  - unfold format_results. cbn [or_default]. rewrite Hkept.
    destruct rs as [|r rs'].
    + unfold limited in Hkept. simpl in Hkept.
      destruct (0 >? or_default limit 1000)%Z; [|discriminate].
      unfold slice_to in Hkept.
      destruct (0 <=? or_default limit 1000)%Z;
        rewrite firstn_nil in Hkept; discriminate.
    + unfold render. cbn [String.eqb Ascii.eqb Bool.eqb].
      rewrite table_lines_described. reflexivity.
  - apply length_described_lines.
  - unfold described_lines, table_width.
    constructor; [|constructor].
    + apply length_padded_line. intros h.
      apply length_pad_right. unfold column_width. lia.
    + rewrite length_join, map_map, length_map.
      rewrite (map_ext _ (column_width (first :: others))
                 (fun h => length_repeat_char "-" _)).
      cbn [String.length]. lia.
    + rewrite Forall_map. apply Forall_forall. intros r Hr.
      apply length_padded_line. intros h.
      apply length_pad_right. apply cell_fits_column. exact Hr.
Qed.

(** Two rows: every line is eleven characters long. *)
Lemma X4_table_lines_aligned_witness :
  exists lines,
    format_results {| json_dumps_default_str := fun _ => EmptyString;
                      csv_DictWriter := fun _ _ => Return EmptyString |}
                   [[("a", VStr "xyz"); ("id", VInt 7)];
                    [("a", VStr "x"); ("id", VInt 12345)]]
                   (Some "table") None
    = Return (join newline lines)
    /\ Forall (fun line => String.length line = 11) lines.
Proof.
  destruct (X4_table_lines_aligned
              {| json_dumps_default_str := fun _ => EmptyString;
                 csv_DictWriter := fun _ _ => Return EmptyString |}
              [[("a", VStr "xyz"); ("id", VInt 7)];
               [("a", VStr "x"); ("id", VInt 12345)]]
              None _ _ eq_refl) as [lines [Hfmt [_ Hlen]]].
  exists lines. split; [exact Hfmt|exact Hlen].
Defined.

End FormatterMore.

(** ** The syntax check: what it looks at *)

Section ValidateMore.
Import Server.

Lemma lstrip_whitespace (s : string) :
  whitespace_only s = true -> lstrip s = EmptyString.
Proof.
  intros H. destruct (lstrip_cases s) as [[_ Hl]|[Hw _]]; [exact Hl|congruence].
Qed.

Lemma lstrip_app_before (pre s : string) :
  whitespace_only pre = true -> lstrip (pre ++ s) = lstrip s.
Proof.
  induction pre as [|c pre IH]; simpl; intros H.
  - reflexivity.
  - apply andb_prop in H. destruct H as [Hc Hpre].
    rewrite Hc. apply IH. exact Hpre.
Qed.

Lemma lstrip_app_after (q post : string) :
  whitespace_only post = true ->
  match lstrip q with
  | EmptyString => lstrip (q ++ post) = EmptyString
  | String c r => lstrip (q ++ post) = String c (r ++ post)
  end.
Proof.
  intros Hpost. induction q as [|a q IH]; simpl.
  - apply lstrip_whitespace. exact Hpost.
  - destruct (isspace a); [exact IH|reflexivity].
Qed.

(** The verdict read off the text with its leading white space
    removed. *)
Lemma validate_by_lstrip (q : string) :
  validate_kql_syntax q
  = match lstrip q with
    | EmptyString => (false, "Empty query")
    | String c _ =>
        if table_start c then (true, "Valid syntax")
        else (false, "Query must start with a table name")
    end.
Proof.
  unfold validate_kql_syntax, strip.
  destruct (lstrip_cases q) as [[_ Hl]|[_ [c [r [Hl Hc]]]]]; rewrite Hl.
  - reflexivity.
  - destruct (rstrip_keeps_head c r Hc) as [r' Hr]. rewrite Hr.
    simpl. destruct (table_start c); reflexivity.
Qed.

(** X5: white space before and after a query never changes the
    verdict. *)
Theorem X5_validate_ignores_surrounding_whitespace :
  forall pre q post : string,
    whitespace_only pre = true ->
    whitespace_only post = true ->
    validate_kql_syntax (pre ++ q ++ post) = validate_kql_syntax q.
Proof.
  intros pre q post Hpre Hpost.
  rewrite !validate_by_lstrip, (lstrip_app_before pre _ Hpre).
  pose proof (lstrip_app_after q post Hpost) as H.
  destruct (lstrip q) as [|c r]; rewrite H; reflexivity.
Qed.

Lemma X5_validate_ignores_surrounding_whitespace_witness :
  validate_kql_syntax ("  " ++ "AppEvents | take 1" ++ " ")
  = validate_kql_syntax "AppEvents | take 1".
Proof.
  apply X5_validate_ignores_surrounding_whitespace; reflexivity.
Defined.

(** X6: the check stops at the first character that is not white
    space: two queries that begin with the same such character get the
    same verdict, whatever follows it. *)
Theorem X6_validate_reads_one_character :
  forall (c : ascii) (rest rest' : string),
    isspace c = false ->
    validate_kql_syntax (String c rest) = validate_kql_syntax (String c rest').
Proof.
  intros c rest rest' Hc.
  rewrite !validate_by_lstrip. simpl. rewrite Hc. reflexivity.
Qed.

Lemma X6_validate_reads_one_character_witness :
  validate_kql_syntax "T | where ((("
  = validate_kql_syntax "T".
Proof.
  apply X6_validate_reads_one_character. reflexivity.
Defined.

End ValidateMore.

(** ** The catalog: lookup against listing *)

Section CatalogMore.
Import SecurityQueries.

Lemma dict_get_absent {V} (d : list (string * V)) (k : string) :
  ~ In k (dict_keys d) -> dict_get d k = None.
Proof.
  intros Hnin. destruct (dict_get d k) eqn:Hget; [|reflexivity].
  exfalso. apply Hnin. apply dict_mem_In. unfold dict_mem.
  rewrite Hget. reflexivity.
Qed.

(** X7: the catalog answers [None] for every name it does not hold,
    and for every name it holds an entry whose description is the one
    [list_security_queries] shows under that name; no name is held
    twice. *)
Theorem X7_catalog_lookup_agrees_with_listing :
  (forall name,
      ~ In name (dict_keys SECURITY_QUERIES) ->
      get_security_query name = PVal VNone)
  /\ (forall name,
        In name (dict_keys SECURITY_QUERIES) ->
        exists q description entries,
          get_security_query name = entry q description
          /\ list_security_queries = Return entries
          /\ In (PDict [("name", PStr name);
                        ("description", PStr description)]) entries)
  /\ NoDup (dict_keys SECURITY_QUERIES).
Proof.
  split; [|split].
  - intros name Hnin. unfold get_security_query.
    rewrite (dict_get_absent _ _ Hnin). reflexivity.
  - intros name Hin. simpl in Hin.
    repeat (destruct Hin as [<-|Hin];
            [do 3 eexists;
             split; [vm_compute; reflexivity|];
             split; [vm_compute; reflexivity|];
             simpl; tauto|]).
    contradiction.
  - simpl. repeat (constructor; [simpl; intuition discriminate|]).
    constructor.
Qed.

Lemma X7_catalog_lookup_agrees_with_listing_witness :
  get_security_query "no_such_query" = PVal VNone
  /\ exists q description,
      get_security_query "admin_activities" = entry q description.
Proof.
  destruct X7_catalog_lookup_agrees_with_listing as (Hnone & Hsome & _).
  split.
  - apply Hnone. simpl. intuition discriminate.
  - destruct (Hsome "admin_activities") as (q & d & _ & Hget & _).
    + simpl. tauto.
    + exists q, d. exact Hget.
Defined.

End CatalogMore.

(** ** The dispatcher: required arguments and what escapes *)

Section Outcomes.
Import Server.
Variable W : world.
Variable L : stdlib.


Ltac unfold_M :=
  unfold arg, lift, mbind, try_, ret, dict_item, call_query_workspace,
    open_file, write_file, get_saved_queries, store_set.

Ltac by_cases :=
  repeat match goal with
         | |- context [match ?x with _ => _ end] => destruct x
         end;
  cbn [fst]; eexists; reflexivity.

Ltac start_branch :=
  intros arguments st; unfold first_missing, dict_mem; cbn [find];
  repeat match goal with
         | |- context [dict_get (fields arguments) ?k] =>
             let E := fresh "E" in
             destruct (dict_get (fields arguments) k) eqn:E; cbn [negb]
         end.

Lemma first_object_saved (store : list (string * saved)) :
  first_object
    (PList (map (fun item : string * saved =>
                   let (name, data) := item in
                   PDict [("name", PStr name);
                          ("description", PStr (description data));
                          ("query", PStr (query data))])
                store))
  = None.
Proof.
  induction store as [|[name data] store IH]; [reflexivity|].
  simpl. simpl in IH. exact IH.
Qed.

Lemma query_logs_outcome :
  branch_outcome ["workspace_id"; "query"] (query_logs W L).
Proof.
  start_branch; unfold query_logs; unfold_M; rewrite ?E, ?E0;
    try reflexivity.
  by_cases.
Qed.

Lemma save_query_outcome : branch_outcome ["name"; "query"] save_query.
Proof.
  start_branch; unfold save_query; unfold_M; rewrite ?E, ?E0;
    try reflexivity.
  eexists; reflexivity.
Qed.

Lemma list_saved_queries_outcome :
  branch_outcome [] (fun _ => list_saved_queries L).
Proof.
  intros arguments st. cbn [first_missing find].
  unfold list_saved_queries. unfold_M.
  destruct (saved_queries st) as [|item store] eqn:Hstore.
  - eexists. reflexivity.
  - unfold json_dumps.
    rewrite (first_object_saved (item :: store)).
    eexists. reflexivity.
Qed.

Lemma run_saved_query_outcome :
  branch_outcome ["workspace_id"; "name"] (run_saved_query W L).
Proof.
  start_branch; unfold run_saved_query; unfold_M; rewrite ?E, ?E0;
    try reflexivity.
  unfold dict_mem.
  destruct (dict_get (saved_queries st) s0) as [data|]; cbn [negb].
  - by_cases.
  - eexists. reflexivity.
Qed.

Lemma validate_query_outcome : branch_outcome ["query"] (validate_query L).
Proof.
  start_branch; unfold validate_query; unfold_M; rewrite ?E;
    try reflexivity.
  destruct (validate_kql_syntax s) as [is_valid message].
  eexists. reflexivity.
Qed.

Lemma list_tables_outcome : branch_outcome ["workspace_id"] (list_tables W L).
Proof.
  start_branch; unfold list_tables; unfold_M; rewrite ?E; try reflexivity.
  by_cases.
Qed.

Lemma get_table_schema_outcome :
  branch_outcome ["workspace_id"; "table_name"] (get_table_schema W L).
Proof.
  start_branch; unfold get_table_schema; unfold_M; rewrite ?E, ?E0;
    try reflexivity.
  by_cases.
Qed.

Lemma export_results_outcome :
  branch_outcome ["workspace_id"; "query"; "filename"] (export_results W L).
Proof.
  start_branch; unfold export_results; unfold_M; rewrite ?E, ?E0, ?E1;
    try reflexivity.
  by_cases.
Qed.


End Outcomes.

Section Contract.
Import Server.

(** X8: the dispatcher honours the [required] lists that
    [handle_list_tools] declares.  For every declared tool, with the
    client handle set: when a required argument is missing the
    invocation raises [KeyError] for the first one missing, in the
    order of the schema, and leaves the state as it was; when none is
    missing it returns a text, whatever the backend and the file system
    answer. *)
Theorem X8_required_arguments :
  forall (W : world) (L : stdlib) (tool : Tool) (arguments : arguments)
         (st : state) (c : client),
    In tool handle_list_tools ->
    logs_client st = Some c ->
    match first_missing (required tool) arguments with
    | Some k =>
        handle_call_tool W L (tool_name tool) arguments st
        = (Raise (KeyError k), st)
    | None =>
        exists text,
          fst (handle_call_tool W L (tool_name tool) arguments st)
          = Return text
    end.
Proof.
  intros W L tool arguments st c Hin Hc.
  rewrite (handle_call_tool_ready W L _ arguments st c Hc).
  simpl in Hin.
  repeat (destruct Hin as [<-|Hin]; [cbn [required tool_name]|]);
    [ apply (query_logs_outcome W L)
    | apply save_query_outcome
    | apply (list_saved_queries_outcome L)
    | apply (run_saved_query_outcome W L)
    | apply (validate_query_outcome L)
    | apply (list_tables_outcome W L)
    | apply (get_table_schema_outcome W L)
    | apply (export_results_outcome W L)
    | contradiction ].
Qed.

(** A query to run without its workspace, and a complete one. *)
Lemma X8_required_arguments_witness :
  let W := {| new_client := fun _ => Return LogsQueryClient;
              query_workspace := fun _ _ _ _ => Raise (SdkError "timeout");
              open_write := fun _ _ => Return tt |} in
  let L := {| json_dumps_default_str := fun _ => EmptyString;
              csv_DictWriter := fun _ _ => Return EmptyString |} in
  let st := {| logs_client := Some LogsQueryClient;
               saved_queries := []; history := [NewClient true] |} in
  handle_call_tool W L "query_logs"
    {| fields := [("query", "AppEvents")]; limit_arg := None |} st
  = (Raise (KeyError "workspace_id"), st)
  /\ exists text,
      fst (handle_call_tool W L "query_logs"
             {| fields := [("workspace_id", "w"); ("query", "AppEvents")];
                limit_arg := None |} st)
      = Return text.
Proof.
  intros W L st.
  pose (none := {| tool_name := EmptyString; tool_description := EmptyString;
                   properties := []; required := [] |}).
  assert (Hin : In (hd none handle_list_tools) handle_list_tools)
    by (simpl; left; reflexivity).
  split.
  - exact (X8_required_arguments W L (hd none handle_list_tools)
             {| fields := [("query", "AppEvents")]; limit_arg := None |}
             st LogsQueryClient Hin eq_refl).
  - exact (X8_required_arguments W L (hd none handle_list_tools)
             {| fields := [("workspace_id", "w"); ("query", "AppEvents")];
                limit_arg := None |}
             st LogsQueryClient Hin eq_refl).
Defined.



(** X10: a name that [handle_list_tools] does not declare is answered
    ["Unknown tool: <name>"], and nothing else happens: no backend
    call, no change of the store. *)
Theorem X10_undeclared_tool :
  forall (W : world) (L : stdlib) (name : string) (arguments : arguments)
         (st : state) (c : client),
    ~ In name (map tool_name handle_list_tools) ->
    logs_client st = Some c ->
    handle_call_tool W L name arguments st
    = (Return ("Unknown tool: " ++ name), st).
Proof.
  intros W L name arguments st c Hnin Hc.
  rewrite (handle_call_tool_ready W L name arguments st c Hc).
  unfold dispatch.
  repeat match goal with
         | |- context [String.eqb name ?s] =>
             destruct (String.eqb_spec name s) as [->|_];
             [exfalso; apply Hnin; simpl; tauto|]
         end.
  reflexivity.
Qed.

Lemma X10_undeclared_tool_witness :
  let W := {| new_client := fun _ => Return LogsQueryClient;
              query_workspace := fun _ _ _ _ => Return [];
              open_write := fun _ _ => Return tt |} in
  let L := {| json_dumps_default_str := fun _ => EmptyString;
              csv_DictWriter := fun _ _ => Return EmptyString |} in
  let st := {| logs_client := Some LogsQueryClient;
               saved_queries := []; history := [NewClient true] |} in
  handle_call_tool W L "delete_query"
    {| fields := [("name", "q1")]; limit_arg := None |} st
  = (Return "Unknown tool: delete_query", st).
Proof.
  intros W L st.
  apply (X10_undeclared_tool W L "delete_query" _ st LogsQueryClient).
  - simpl. intuition discriminate.
  - reflexivity.
Defined.

End Contract.

(** ** The dispatcher: backend calls per invocation *)

Section BackendCalls.
Import Server.

Lemma within_quiet {A} (n : nat) (m : M A) :
  (forall st, backend_calls (history (snd (m st)))
              = backend_calls (history st)) ->
  within n m.
Proof.
  intros H st. exists []. rewrite app_nil_r. split; [apply H|simpl; lia].
Qed.

Lemma within_ret {A} n (a : A) : within n (ret a).
Proof.
  apply within_quiet. reflexivity.
Qed.

Lemma within_lift {A} n (x : except A) : within n (lift x).
Proof.
  apply within_quiet. reflexivity.
Qed.

Lemma within_arg n arguments k : within n (arg arguments k).
Proof.
  apply within_lift.
Qed.

Lemma within_get_saved_queries n : within n get_saved_queries.
Proof.
  apply within_quiet. reflexivity.
Qed.

Lemma within_store_set n name_key data : within n (store_set name_key data).
Proof.
  apply within_quiet. reflexivity.
Qed.

Lemma within_open_file n W filename : within n (open_file W filename).
Proof.
  apply within_quiet. intros st. simpl.
  rewrite backend_calls_snoc. apply app_nil_r.
Qed.

Lemma within_write_file n filename content :
  within n (write_file filename content).
Proof.
  apply within_quiet. intros st. simpl.
  rewrite backend_calls_snoc. apply app_nil_r.
Qed.

Lemma within_call_query_workspace n W ws q ts :
  within (S n) (call_query_workspace W ws q ts).
Proof.
  intros st. exists [QueryWorkspace ws q ts]. simpl.
  rewrite backend_calls_snoc. split; [reflexivity|simpl; lia].
Qed.

Lemma within_bind {A B} a b (m : M A) (k : A -> M B) :
  within a m -> (forall x, within b (k x)) -> within (a + b) (mbind m k).
Proof.
  intros Hm Hk st. unfold mbind.
  destruct (Hm st) as [l1 [H1 Hl1]].
  destruct (m st) as [[x|e] st1]; cbn [snd] in *.
  - destruct (Hk x st1) as [l2 [H2 Hl2]].
    exists (l1 ++ l2)%list. rewrite H2, H1, app_assoc, length_app.
    split; [reflexivity|lia].
  - exists l1. split; [exact H1|lia].
Qed.

Lemma within_try {A} a b (body : M A) (handler : exn -> M A) :
  within a body -> (forall e, within b (handler e)) ->
  within (a + b) (try_ body handler).
Proof.
  intros Hb Hh st. unfold try_.
  destruct (Hb st) as [l1 [H1 Hl1]].
  destruct (body st) as [[x|e] st1]; cbn [snd] in *.
  - exists l1. split; [exact H1|lia].
  - destruct (Hh e st1) as [l2 [H2 Hl2]].
    exists (l1 ++ l2)%list. rewrite H2, H1, app_assoc, length_app.
    split; [reflexivity|lia].
Qed.

Create HintDb within_db.
#[local] Hint Resolve within_ret within_lift within_arg
  within_get_saved_queries within_store_set within_open_file
  within_write_file within_call_query_workspace : within_db.

(** Arguments and the store first, then the one guarded call. *)
Ltac within_step :=
  match goal with
  | |- within 1 (mbind (call_query_workspace _ _ _ _) _) =>
      apply (within_bind 1 0); [|intros ?]
  | |- within ?n (mbind _ _) => apply (within_bind 0 n); [|intros ?]
  | |- within ?n (try_ _ _) =>
      replace n with (n + 0) by lia; apply within_try; [|intros ?]
  | |- within _ (match ?x with _ => _ end) => destruct x
  | |- within _ _ => solve [auto with within_db]
  end.

Lemma dispatch_within W L name arguments :
  within 1 (dispatch W L name arguments).
Proof.
  unfold dispatch.
  repeat match goal with
         | |- context [String.eqb name ?s] => destruct (String.eqb name s)
         end;
    unfold query_logs, save_query, list_saved_queries, run_saved_query,
      validate_query, list_tables, get_table_schema, export_results;
    repeat within_step.
Qed.

(** The tools that never reach the backend. *)
Lemma local_dispatch_within W L name arguments :
  In name ["save_query"; "list_saved_queries"; "validate_query"] ->
  within 0 (dispatch W L name arguments).
Proof.
  intros Hin. simpl in Hin.
  repeat (destruct Hin as [<-|Hin];
          [unfold dispatch; cbn [String.eqb Ascii.eqb Bool.eqb];
           unfold save_query, list_saved_queries, validate_query;
           repeat within_step|]).
  contradiction.
Qed.

Lemma handle_call_tool_within W L n name arguments :
  within n (dispatch W L name arguments) ->
  within n (handle_call_tool W L name arguments).
Proof.
  intros Hd st. destruct (logs_client st) as [c|] eqn:Hc.
  - rewrite (handle_call_tool_ready W L name arguments st c Hc). apply Hd.
  - destruct (new_client W (history st)) as [c|e] eqn:Hnew.
    + rewrite (handle_call_tool_built W L name arguments st c Hc Hnew).
      match goal with
      | |- context [dispatch _ _ _ _ ?s] => destruct (Hd s) as [l [Hl Hn]]
      end.
      exists l. rewrite Hl. cbn [history].
      rewrite backend_calls_snoc, app_nil_r. split; [reflexivity|exact Hn].
    + rewrite (handle_call_tool_failed W L name arguments st e Hc Hnew).
      exists []. cbn [snd].
      rewrite backend_calls_record_attempt, app_nil_r.
      split; [reflexivity|simpl; lia].
Qed.

(** X11: an invocation makes at most one backend query call, whatever
    the tool, the arguments and the answers of the world; [save_query],
    [list_saved_queries] and [validate_query] make none. *)
Theorem X11_one_backend_call_at_most :
  forall (W : world) (L : stdlib) (name : string) (arguments : arguments),
    within 1 (handle_call_tool W L name arguments)
    /\ (In name ["save_query"; "list_saved_queries"; "validate_query"] ->
        within 0 (handle_call_tool W L name arguments)).
Proof.
  intros W L name arguments. split.
  - apply handle_call_tool_within, dispatch_within.
  - intros Hin. apply handle_call_tool_within, local_dispatch_within, Hin.
Qed.

Lemma X11_one_backend_call_at_most_witness :
  let W := {| new_client := fun _ => Return LogsQueryClient;
              query_workspace := fun _ _ _ _ => Return [];
              open_write := fun _ _ => Return tt |} in
  let L := {| json_dumps_default_str := fun _ => EmptyString;
              csv_DictWriter := fun _ _ => Return EmptyString |} in
  within 0 (handle_call_tool W L "validate_query"
              {| fields := [("query", "AppEvents")]; limit_arg := None |}).
Proof.
  intros W L.
  apply (proj2 (X11_one_backend_call_at_most W L "validate_query" _)).
  simpl. tauto.
Defined.

End BackendCalls.

(** ** The dispatcher: who writes the store *)

Section StoreWriters.
Import Server.

Section Respect.
Variable R : state -> state -> Prop.
Hypothesis R_refl : forall st, R st st.
Hypothesis R_trans : forall st1 st2 st3, R st1 st2 -> R st2 st3 -> R st1 st3.
Hypothesis R_record : forall ev st, R st (record ev st).

Lemma respects_ret {A} (a : A) : respects R (ret a).
Proof.
  intros st. apply R_refl.
Qed.

Lemma respects_lift {A} (x : except A) : respects R (lift x).
Proof.
  intros st. apply R_refl.
Qed.

Lemma respects_arg arguments k : respects R (arg arguments k).
Proof.
  apply respects_lift.
Qed.

Lemma respects_get_saved_queries : respects R get_saved_queries.
Proof.
  intros st. apply R_refl.
Qed.

Lemma respects_call_query_workspace W ws q ts :
  respects R (call_query_workspace W ws q ts).
Proof.
  intros st. apply R_record.
Qed.

Lemma respects_open_file W filename : respects R (open_file W filename).
Proof.
  intros st. apply R_record.
Qed.

Lemma respects_write_file filename content :
  respects R (write_file filename content).
Proof.
  intros st. apply R_record.
Qed.

Lemma respects_bind {A B} (m : M A) (k : A -> M B) :
  respects R m -> (forall a, respects R (k a)) -> respects R (mbind m k).
Proof.
  intros Hm Hk st. unfold mbind.
  specialize (Hm st). destruct (m st) as [[a|e] st1]; cbn [snd] in *.
  - eapply R_trans; [exact Hm|apply Hk].
  - exact Hm.
Qed.

Lemma respects_try {A} (body : M A) (handler : exn -> M A) :
  respects R body -> (forall e, respects R (handler e)) ->
  respects R (try_ body handler).
Proof.
  intros Hb Hh st. unfold try_.
  specialize (Hb st). destruct (body st) as [[a|e] st1]; cbn [snd] in *.
  - exact Hb.
  - eapply R_trans; [exact Hb|apply Hh].
Qed.

Ltac respects_step :=
  match goal with
  | |- respects R (mbind _ _) => apply respects_bind; [|intros ?]
  | |- respects R (try_ _ _) => apply respects_try; [|intros ?]
  | |- respects R (match ?x with _ => _ end) => destruct x
  | |- respects R _ =>
      first [ apply respects_ret | apply respects_lift | apply respects_arg
            | apply respects_get_saved_queries
            | apply respects_call_query_workspace
            | apply respects_open_file | apply respects_write_file ]
  end.

(** Every branch but [save_query] keeps [R]; [save_query] does when its
    write to the store does. *)
Lemma dispatch_respects W L name arguments :
  (String.eqb name "save_query" = true ->
   forall name_key data, respects R (store_set name_key data)) ->
  respects R (dispatch W L name arguments).
Proof.
  intros Hsave. unfold dispatch.
  destruct (String.eqb name "query_logs");
    [unfold query_logs; repeat respects_step|].
  destruct (String.eqb name "save_query").
  { unfold save_query. repeat respects_step.
    apply Hsave. reflexivity. }
  repeat match goal with
         | |- context [String.eqb name ?s] => destruct (String.eqb name s)
         end;
    unfold list_saved_queries, run_saved_query, validate_query, list_tables,
      get_table_schema, export_results;
    repeat respects_step.
Qed.

Lemma handle_call_tool_respects W L name arguments :
  (forall st c ev,
      R st {| logs_client := Some c;
              saved_queries := saved_queries st;
              history := (history st ++ [ev])%list |}) ->
  respects R (dispatch W L name arguments) ->
  respects R (handle_call_tool W L name arguments).
Proof.
  intros Hclient Hd st. destruct (logs_client st) as [c|] eqn:Hc.
  - rewrite (handle_call_tool_ready W L name arguments st c Hc). apply Hd.
  - destruct (new_client W (history st)) as [c|e] eqn:Hnew.
    + rewrite (handle_call_tool_built W L name arguments st c Hc Hnew).
      eapply R_trans; [apply (Hclient st c (NewClient true))|apply Hd].
    + rewrite (handle_call_tool_failed W L name arguments st e Hc Hnew).
      apply R_record.
Qed.

End Respect.

Lemma store_grows_set (st : state) name_key (data : saved) :
  store_grows st (snd (store_set name_key data st)).
Proof.
  intros name Hmem. simpl.
  apply dict_mem_In. rewrite dict_keys_set.
  apply dict_mem_In in Hmem.
  destruct (dict_mem (saved_queries st) name_key); [exact Hmem|].
  apply in_or_app. left. exact Hmem.
Qed.

(** X12: [save_query] is the only tool that writes the store: an
    invocation under any other name, known or not, leaves the saved
    queries exactly as they were, whatever the world answers. *)
Theorem X12_only_save_query_writes_the_store :
  forall (W : world) (L : stdlib) (name : string) (arguments : arguments)
         (st : state),
    name <> "save_query" ->
    saved_queries (snd (handle_call_tool W L name arguments st))
    = saved_queries st.
Proof.
  intros W L name arguments st Hname.
  assert (Hrefl : forall s, same_store s s) by (intros s; reflexivity).
  assert (Htrans : forall s1 s2 s3,
             same_store s1 s2 -> same_store s2 s3 -> same_store s1 s3)
    by (unfold same_store; intros s1 s2 s3 H12 H23; congruence).
  assert (Hrec : forall ev s, same_store s (record ev s))
    by (intros ev s; reflexivity).
  apply (handle_call_tool_respects same_store Htrans Hrec
           W L name arguments).
  - intros s c ev. reflexivity.
  - apply (dispatch_respects same_store Hrefl Htrans Hrec).
    intros Heq. apply String.eqb_eq in Heq. contradiction.
Qed.

Lemma X12_only_save_query_writes_the_store_witness :
  let W := {| new_client := fun _ => Return LogsQueryClient;
              query_workspace := fun _ _ _ _ => Raise (SdkError "timeout");
              open_write := fun _ _ => Return tt |} in
  let L := {| json_dumps_default_str := fun _ => EmptyString;
              csv_DictWriter := fun _ _ => Return EmptyString |} in
  let st := {| logs_client := None;
               saved_queries :=
                 [("q1", {| query := "AppEvents"; description := "mine" |})];
               history := [] |} in
  saved_queries
    (snd (handle_call_tool W L "run_saved_query"
            {| fields := [("workspace_id", "w"); ("name", "q1")];
               limit_arg := None |} st))
  = [("q1", {| query := "AppEvents"; description := "mine" |})].
Proof.
  intros W L st.
  apply (X12_only_save_query_writes_the_store W L "run_saved_query" _ st).
  discriminate.
Defined.

(** X13: saved queries are never deleted: a name present in the store
    is still present after any sequence of invocations. *)
Theorem X13_saved_queries_are_never_deleted :
  forall (W : world) (L : stdlib) (calls : list (string * arguments))
         (st : state) (name : string),
    dict_mem (saved_queries st) name = true ->
    dict_mem (saved_queries (snd (run W L calls st))) name = true.
Proof.
  intros W L calls st name Hmem.
  apply (run_invariant W L
           (fun s => dict_mem (saved_queries s) name = true));
    [|exact Hmem].
  intros tool arguments s Hs.
  assert (Hrefl : forall s0, store_grows s0 s0) by (intros s0 k Hk; exact Hk).
  assert (Htrans : forall s1 s2 s3,
             store_grows s1 s2 -> store_grows s2 s3 -> store_grows s1 s3)
    by (intros s1 s2 s3 H12 H23 k Hk; apply H23, H12, Hk).
  assert (Hrec : forall ev s0, store_grows s0 (record ev s0))
    by (intros ev s0 k Hk; exact Hk).
  apply (handle_call_tool_respects store_grows Htrans Hrec
           W L tool arguments).
  - intros s0 c ev k Hk. exact Hk.
  - apply (dispatch_respects store_grows Hrefl Htrans Hrec).
    intros _ name_key data s0. apply store_grows_set.
  - exact Hs.
Qed.

Lemma X13_saved_queries_are_never_deleted_witness :
  let W := {| new_client := fun _ => Return LogsQueryClient;
              query_workspace := fun _ _ _ _ => Return [];
              open_write := fun _ _ => Return tt |} in
  let L := {| json_dumps_default_str := fun _ => EmptyString;
              csv_DictWriter := fun _ _ => Return EmptyString |} in
  let st := {| logs_client := None;
               saved_queries :=
                 [("q1", {| query := "AppEvents"; description := "mine" |})];
               history := [] |} in
  dict_mem
    (saved_queries
       (snd (run W L
               [("save_query",
                 {| fields := [("name", "q2"); ("query", "Heartbeat")];
                    limit_arg := None |});
                ("delete_query",
                 {| fields := [("name", "q1")]; limit_arg := None |})]
               st)))
    "q1"
  = true.
Proof.
  intros W L st.
  apply (X13_saved_queries_are_never_deleted W L _ st "q1"). reflexivity.
Defined.

End StoreWriters.

(** ** The dispatcher: the backend tools *)

Section BackendTools.
Import Server.

Ltac unfold_M :=
  unfold arg, arg_get, lift, mbind, try_, ret, dict_item,
    call_query_workspace, open_file, write_file, get_saved_queries,
    store_set.

(** X14: a failure of the backend query is returned as text under the
    label of the tool, after that one call and nothing else: no file is
    opened, the store is as it was. *)
Theorem X14_backend_failure_is_returned_as_text :
  forall (W : world) (L : stdlib) (st : state) (c : client) (e : exn)
         (arguments : arguments) (workspace_id : string),
    logs_client st = Some c ->
    dict_get (fields arguments) "workspace_id" = Some workspace_id ->
    let failed := fun (tool label query timespan : string) =>
      query_workspace W (history st) workspace_id query timespan = Raise e ->
      handle_call_tool W L tool arguments st
      = (Return (label ++ str_exn e),
         record (QueryWorkspace workspace_id query timespan) st) in
    (forall query,
        dict_get (fields arguments) "query" = Some query ->
        failed "query_logs" "Query failed: " query
               (arg_get arguments "timespan" "PT1H"))
    /\ (forall name data,
          dict_get (fields arguments) "name" = Some name ->
          dict_get (saved_queries st) name = Some data ->
          failed "run_saved_query" "Query failed: " (query data)
                 (arg_get arguments "timespan" "PT1H"))
    /\ failed "list_tables" "Failed to list tables: "
              "search * | distinct $table | sort by $table asc" "P30D"
    /\ (forall table_name,
          dict_get (fields arguments) "table_name" = Some table_name ->
          failed "get_table_schema" "Failed to get schema: "
                 (table_name
                  ++ " | getschema | project ColumnName, DataType, ColumnType")
                 "P1D")
    /\ (forall query filename,
          dict_get (fields arguments) "query" = Some query ->
          dict_get (fields arguments) "filename" = Some filename ->
          failed "export_results" "Export failed: " query "PT24H").
Proof.
  intros W L st c e arguments ws Hc Hws failed. unfold failed.
  repeat split.
  - intros q Hq Hfail.
    rewrite (handle_call_tool_ready W L _ arguments st c Hc).
    change (dispatch W L "query_logs" arguments)
      with (query_logs W L arguments).
    unfold query_logs. unfold_M. rewrite Hws, Hq.
    unfold arg_get in Hfail. rewrite Hfail. reflexivity.
  - intros name data Hname Hdata Hfail.
    rewrite (handle_call_tool_ready W L _ arguments st c Hc).
    change (dispatch W L "run_saved_query" arguments)
      with (run_saved_query W L arguments).
    unfold run_saved_query. unfold_M. rewrite Hws, Hname.
    unfold dict_mem. rewrite Hdata. cbn [negb].
    unfold arg_get in Hfail. rewrite Hfail. reflexivity.
  - intros Hfail.
    rewrite (handle_call_tool_ready W L _ arguments st c Hc).
    change (dispatch W L "list_tables" arguments)
      with (list_tables W L arguments).
    unfold list_tables. unfold_M. rewrite Hws, Hfail. reflexivity.
  - intros t Ht Hfail.
    rewrite (handle_call_tool_ready W L _ arguments st c Hc).
    change (dispatch W L "get_table_schema" arguments)
      with (get_table_schema W L arguments).
    unfold get_table_schema. unfold_M. rewrite Hws, Ht, Hfail. reflexivity.
  - intros q f Hq Hf Hfail.
    rewrite (handle_call_tool_ready W L _ arguments st c Hc).
    change (dispatch W L "export_results" arguments)
      with (export_results W L arguments).
    unfold export_results. unfold_M. rewrite Hws, Hq, Hf, Hfail. reflexivity.
Qed.

Lemma X14_backend_failure_is_returned_as_text_witness :
  let W := {| new_client := fun _ => Return LogsQueryClient;
              query_workspace := fun _ _ _ _ => Raise (SdkError "timeout");
              open_write := fun _ _ => Return tt |} in
  let L := {| json_dumps_default_str := fun _ => EmptyString;
              csv_DictWriter := fun _ _ => Return EmptyString |} in
  let st := {| logs_client := Some LogsQueryClient;
               saved_queries := []; history := [NewClient true] |} in
  handle_call_tool W L "list_tables"
    {| fields := [("workspace_id", "w")]; limit_arg := None |} st
  = (Return "Failed to list tables: timeout",
     record (QueryWorkspace "w"
               "search * | distinct $table | sort by $table asc" "P30D") st).
Proof.
  intros W L st.
  destruct (X14_backend_failure_is_returned_as_text
              W L st LogsQueryClient (SdkError "timeout")
              {| fields := [("workspace_id", "w")]; limit_arg := None |}
              "w" eq_refl eq_refl) as (_ & _ & Htables & _).
  apply Htables. reflexivity.
Defined.

(** X15: a saved query runs as it was saved: after [save_query] has
    stored a text under a name, [run_saved_query] with that name makes
    exactly one backend call, for that text, in the workspace given,
    over the time span given or ["PT1H"]. *)
Theorem X15_run_executes_the_saved_text :
  forall (W : world) (L : stdlib) (st : state) (c : client)
         (saving running : arguments) (name text workspace_id : string),
    logs_client st = Some c ->
    dict_get (fields saving) "name" = Some name ->
    dict_get (fields saving) "query" = Some text ->
    dict_get (fields running) "workspace_id" = Some workspace_id ->
    dict_get (fields running) "name" = Some name ->
    let st1 := snd (handle_call_tool W L "save_query" saving st) in
    history (snd (handle_call_tool W L "run_saved_query" running st1))
    = (history st
       ++ [QueryWorkspace workspace_id text
             (arg_get running "timespan" "PT1H")])%list.
Proof.
  intros W L st c saving running name text ws Hc Hname Htext Hws Hrun st1.
  unfold st1.
  rewrite (handle_call_tool_ready W L _ saving st c Hc).
  change (dispatch W L "save_query" saving) with (save_query saving).
  rewrite (save_query_saves saving st name text Hname Htext). cbn [snd].
  match goal with
  | |- context [handle_call_tool W L _ running ?s] =>
      rewrite (handle_call_tool_ready W L _ running s c Hc)
  end.
  change (dispatch W L "run_saved_query" running)
    with (run_saved_query W L running).
  unfold run_saved_query. unfold_M. rewrite Hws, Hrun. cbn [saved_queries].
  unfold dict_mem. rewrite dict_get_set_same. cbn [negb query history].
  destruct (query_workspace W (history st) ws text _) as [[|t ts]|e];
    reflexivity.
Qed.

Lemma X15_run_executes_the_saved_text_witness :
  let W := {| new_client := fun _ => Return LogsQueryClient;
              query_workspace := fun _ _ _ _ => Return [];
              open_write := fun _ _ => Return tt |} in
  let L := {| json_dumps_default_str := fun _ => EmptyString;
              csv_DictWriter := fun _ _ => Return EmptyString |} in
  let st := {| logs_client := Some LogsQueryClient;
               saved_queries := []; history := [NewClient true] |} in
  let st1 :=
    snd (handle_call_tool W L "save_query"
           {| fields := [("name", "q1"); ("query", "Heartbeat | take 5")];
              limit_arg := None |} st) in
  history
    (snd (handle_call_tool W L "run_saved_query"
            {| fields := [("workspace_id", "w"); ("name", "q1");
                          ("timespan", "P1D")];
               limit_arg := None |} st1))
  = [NewClient true; QueryWorkspace "w" "Heartbeat | take 5" "P1D"].
Proof.
  intros W L st st1.
  exact (X15_run_executes_the_saved_text
           W L st LogsQueryClient
           {| fields := [("name", "q1"); ("query", "Heartbeat | take 5")];
              limit_arg := None |}
           {| fields := [("workspace_id", "w"); ("name", "q1");
                         ("timespan", "P1D")];
              limit_arg := None |}
           "q1" "Heartbeat | take 5" "w"
           eq_refl eq_refl eq_refl eq_refl eq_refl).
Defined.

End BackendTools.

(** ** The dispatcher: exports, formats and defaults *)

Section Exports.
Import Server.

Ltac unfold_M :=
  unfold arg, arg_get, lift, mbind, try_, ret, dict_item,
    call_query_workspace, open_file, write_file, get_saved_queries,
    store_set.

Lemma length_results_of (tables : list table) :
  List.length (results_of tables)
  = list_sum (map (fun t => List.length (rows t)) tables).
Proof.
  unfold results_of. rewrite length_flat_map.
  f_equal. apply map_ext. intros t. apply length_map.
Qed.

(** X16: an export in csv form of tables that hold no row opens the
    file, so empties it, writes nothing to it, and reports 0 rows. *)
Theorem X16_export_of_no_row :
  forall (W : world) (L : stdlib) (st : state) (c : client)
         (arguments : arguments) (workspace_id query filename : string)
         (t : table) (ts : list table),
    logs_client st = Some c ->
    dict_get (fields arguments) "workspace_id" = Some workspace_id ->
    dict_get (fields arguments) "query" = Some query ->
    dict_get (fields arguments) "filename" = Some filename ->
    arg_get arguments "format" "csv" = "csv" ->
    query_workspace W (history st) workspace_id query "PT24H"
    = Return (t :: ts) ->
    results_of (t :: ts) = [] ->
    open_write W (history st ++ [QueryWorkspace workspace_id query "PT24H"])
               filename
    = Return tt ->
    handle_call_tool W L "export_results" arguments st
    = (Return ("Results exported to " ++ filename ++ " (0 rows)"),
       record (OpenFile filename)
              (record (QueryWorkspace workspace_id query "PT24H") st)).
Proof.
  intros W L st c arguments ws q f t ts Hc Hws Hq Hf Hfmt Hquery Hrows Hopen.
  rewrite (handle_call_tool_ready W L _ arguments st c Hc).
  change (dispatch W L "export_results" arguments)
    with (export_results W L arguments).
  unfold export_results. unfold arg_get in Hfmt. unfold_M.
  rewrite Hws, Hq, Hf, Hquery, Hfmt, Hrows.
  cbn [String.eqb Ascii.eqb Bool.eqb record history]. rewrite Hopen.
  reflexivity.
Qed.

Lemma X16_export_of_no_row_witness :
  let W := {| new_client := fun _ => Return LogsQueryClient;
              query_workspace := fun _ _ _ _ =>
                Return [{| columns := ["TimeGenerated"]; rows := [] |}];
              open_write := fun _ _ => Return tt |} in
  let L := {| json_dumps_default_str := fun _ => EmptyString;
              csv_DictWriter := fun _ _ => Return EmptyString |} in
  let st := {| logs_client := Some LogsQueryClient;
               saved_queries := []; history := [NewClient true] |} in
  handle_call_tool W L "export_results"
    {| fields := [("workspace_id", "w"); ("query", "AppEvents");
                  ("filename", "out.csv")];
       limit_arg := None |} st
  = (Return "Results exported to out.csv (0 rows)",
     record (OpenFile "out.csv")
            (record (QueryWorkspace "w" "AppEvents" "PT24H") st)).
Proof.
  intros W L st.
  exact (X16_export_of_no_row W L st LogsQueryClient
           {| fields := [("workspace_id", "w"); ("query", "AppEvents");
                         ("filename", "out.csv")];
              limit_arg := None |}
           "w" "AppEvents"
           "out.csv" {| columns := ["TimeGenerated"]; rows := [] |} []
           eq_refl eq_refl eq_refl eq_refl eq_refl eq_refl eq_refl eq_refl).
Defined.

(** X17: an export in csv form writes every row the backend returned,
    whatever their number: the writer is given the rows of all the
    tables, one file is opened and written once, and the text returned
    counts the rows of all the tables. *)
Theorem X17_export_writes_every_row :
  forall (W : world) (L : stdlib) (st : state) (c : client)
         (arguments : arguments) (workspace_id query filename content : string)
         (tables : list table) (first : row) (others : list row),
    logs_client st = Some c ->
    dict_get (fields arguments) "workspace_id" = Some workspace_id ->
    dict_get (fields arguments) "query" = Some query ->
    dict_get (fields arguments) "filename" = Some filename ->
    arg_get arguments "format" "csv" = "csv" ->
    query_workspace W (history st) workspace_id query "PT24H"
    = Return tables ->
    results_of tables = first :: others ->
    open_write W (history st ++ [QueryWorkspace workspace_id query "PT24H"])
               filename
    = Return tt ->
    csv_DictWriter L (dict_keys first) (first :: others) = Return content ->
    handle_call_tool W L "export_results" arguments st
    = (Return ("Results exported to " ++ filename ++ " ("
               ++ string_of_Z
                    (Z.of_nat
                       (list_sum (map (fun t => List.length (rows t)) tables)))
               ++ " rows)"),
       record (WriteFile filename content)
              (record (OpenFile filename)
                      (record (QueryWorkspace workspace_id query "PT24H") st))).
Proof.
  intros W L st c arguments ws q f content tables first others
         Hc Hws Hq Hf Hfmt Hquery Hrows Hopen Hcsv.
  rewrite <- length_results_of.
  rewrite (handle_call_tool_ready W L _ arguments st c Hc).
  change (dispatch W L "export_results" arguments)
    with (export_results W L arguments).
  unfold export_results. unfold arg_get in Hfmt. unfold_M.
  rewrite Hws, Hq, Hf, Hquery, Hfmt, Hrows.
  destruct tables as [|t ts]; [discriminate Hrows|].
  cbn [String.eqb Ascii.eqb Bool.eqb record history]. rewrite Hopen, Hcsv.
  reflexivity.
Qed.

Lemma X17_export_writes_every_row_witness :
  let W := {| new_client := fun _ => Return LogsQueryClient;
              query_workspace := fun _ _ _ _ =>
                Return [{| columns := ["n"]; rows := [[VInt 1]; [VInt 2]] |};
                        {| columns := ["n"]; rows := [[VInt 3]] |}];
              open_write := fun _ _ => Return tt |} in
  let L := {| json_dumps_default_str := fun _ => EmptyString;
              csv_DictWriter := fun _ rs =>
                Return (string_of_Z (Z.of_nat (List.length rs))) |} in
  let st := {| logs_client := Some LogsQueryClient;
               saved_queries := []; history := [NewClient true] |} in
  fst (handle_call_tool W L "export_results"
         {| fields := [("workspace_id", "w"); ("query", "AppEvents");
                       ("filename", "out.csv")];
            limit_arg := None |} st)
  = Return "Results exported to out.csv (3 rows)".
Proof.
  intros W L st.
  rewrite (X17_export_writes_every_row W L st LogsQueryClient
             {| fields := [("workspace_id", "w"); ("query", "AppEvents");
                           ("filename", "out.csv")];
                limit_arg := None |}
             "w" "AppEvents" "out.csv" "3"
             [{| columns := ["n"]; rows := [[VInt 1]; [VInt 2]] |};
              {| columns := ["n"]; rows := [[VInt 3]] |}]
             [("n", VInt 1)] [[("n", VInt 2)]; [("n", VInt 3)]]
             eq_refl eq_refl eq_refl eq_refl eq_refl eq_refl eq_refl eq_refl
             eq_refl).
  reflexivity.
Defined.

(** X18: in [query_logs] a failure of the formatter, which is one of
    the csv writer, is reported under the label of a failed query,
    after the backend call succeeded. *)
Theorem X18_formatter_failure_reads_query_failed :
  forall (W : world) (L : stdlib) (st : state) (c : client)
         (arguments : arguments) (workspace_id query : string)
         (t : table) (ts : list table) (e : exn),
    logs_client st = Some c ->
    dict_get (fields arguments) "workspace_id" = Some workspace_id ->
    dict_get (fields arguments) "query" = Some query ->
    query_workspace W (history st) workspace_id query
                    (arg_get arguments "timespan" "PT1H")
    = Return (t :: ts) ->
    format_results L (results_of (t :: ts))
                   (Some (arg_get arguments "format" "json"))
                   (Some (or_default (limit_arg arguments) 1000%Z))
    = Raise e ->
    handle_call_tool W L "query_logs" arguments st
    = (Return ("Query failed: " ++ str_exn e),
       record (QueryWorkspace workspace_id query
                 (arg_get arguments "timespan" "PT1H")) st).
Proof.
  intros W L st c arguments ws q t ts e Hc Hws Hq Hquery Hfmt.
  rewrite (handle_call_tool_ready W L _ arguments st c Hc).
  change (dispatch W L "query_logs" arguments)
    with (query_logs W L arguments).
  unfold query_logs. unfold arg_get, or_default in *. unfold_M.
  rewrite Hws, Hq, Hquery, Hfmt. reflexivity.
Qed.

Lemma X18_formatter_failure_reads_query_failed_witness :
  let W := {| new_client := fun _ => Return LogsQueryClient;
              query_workspace := fun _ _ _ _ =>
                Return [{| columns := ["a"]; rows := [[VInt 1]] |};
                        {| columns := ["b"]; rows := [[VInt 2]] |}];
              open_write := fun _ _ => Return tt |} in
  let L := {| json_dumps_default_str := fun _ => EmptyString;
              csv_DictWriter := fun _ _ =>
                Raise (ValueError "dict contains fields not in fieldnames: 'b'") |} in
  let st := {| logs_client := Some LogsQueryClient;
               saved_queries := []; history := [NewClient true] |} in
  fst (handle_call_tool W L "query_logs"
         {| fields := [("workspace_id", "w"); ("query", "union A, B");
                       ("format", "csv")];
            limit_arg := None |} st)
  = Return "Query failed: dict contains fields not in fieldnames: 'b'".
Proof.
  intros W L st.
  rewrite (X18_formatter_failure_reads_query_failed
             W L st LogsQueryClient
             {| fields := [("workspace_id", "w"); ("query", "union A, B");
                           ("format", "csv")];
                limit_arg := None |}
             "w" "union A, B"
             {| columns := ["a"]; rows := [[VInt 1]] |}
             [{| columns := ["b"]; rows := [[VInt 2]] |}]
             (ValueError "dict contains fields not in fieldnames: 'b'")
             eq_refl eq_refl eq_refl eq_refl eq_refl).
  reflexivity.
Defined.

End Exports.

Section Defaults.
Import Server.

Ltac unfold_M :=
  unfold arg, arg_get, lift, mbind, try_, ret, dict_item,
    call_query_workspace, open_file, write_file, get_saved_queries,
    store_set.

Lemma dict_get_snoc {V} (d : list (string * V)) (k : string) (v : V)
      (k' : string) :
  dict_get (d ++ [(k, v)])%list k'
  = match dict_get d k' with
    | Some x => Some x
    | None => if String.eqb k' k then Some v else None
    end.
Proof.
  induction d as [|[k0 v0] d IH]; simpl.
  - reflexivity.
  - destruct (String.eqb k' k0); [reflexivity|exact IH].
Qed.

Lemma handle_call_tool_ext W L name a1 a2 st :
  (forall s, dispatch W L name a1 s = dispatch W L name a2 s) ->
  handle_call_tool W L name a1 st = handle_call_tool W L name a2 st.
Proof.
  intros H. unfold handle_call_tool, mbind.
  destruct (ensure_client W st) as [[[text|]|e] s]; [reflexivity|apply H|reflexivity].
Qed.

(** X19: the defaults that [handle_list_tools] declares are the ones
    the dispatcher uses: for every declared tool and every property
    with a declared default, an invocation that leaves the argument out
    behaves as the same invocation with the default given. *)
Theorem X19_declared_defaults_are_honoured :
  forall (W : world) (L : stdlib) (tool : Tool) (k : string) (p : property)
         (arguments : arguments) (st : state),
    In tool handle_list_tools ->
    In (k, p) (properties tool) ->
    (forall d,
        prop_default p = Some (VStr d) ->
        dict_get (fields arguments) k = None ->
        handle_call_tool W L (tool_name tool) (with_field arguments k d) st
        = handle_call_tool W L (tool_name tool) arguments st)
    /\ (forall n,
          prop_default p = Some (VInt n) ->
          limit_arg arguments = None ->
          handle_call_tool W L (tool_name tool)
            {| fields := fields arguments; limit_arg := Some n |} st
          = handle_call_tool W L (tool_name tool) arguments st).
Proof.
  intros W L tool k p arguments st Htool Hprop.
  simpl in Htool.
  repeat (destruct Htool as [<-|Htool];
          [cbn [properties tool_name] in *; simpl in Hprop;
           repeat (destruct Hprop as [Hprop|Hprop];
                   [injection Hprop as <- <-|]);
           try contradiction|]);
    try contradiction;
    (split; [intros d Hd Hnone|intros n Hn Hnone]);
    cbn [prop_default string_property] in *; try discriminate;
    first [injection Hd as <-|injection Hn as <-];
    apply handle_call_tool_ext; intros s;
    unfold dispatch; cbn [String.eqb Ascii.eqb Bool.eqb];
    unfold query_logs, run_saved_query, export_results, with_field;
    unfold_M; cbn [fields limit_arg];
    rewrite ?dict_get_snoc; cbn [String.eqb Ascii.eqb Bool.eqb];
    rewrite ?Hnone;
    repeat match goal with
           | |- context [dict_get (fields arguments) ?key] =>
               destruct (dict_get (fields arguments) key)
           end;
    reflexivity.
Qed.

(** The time span of [query_logs]. *)
Lemma X19_declared_defaults_are_honoured_witness :
  let W := {| new_client := fun _ => Return LogsQueryClient;
              query_workspace := fun _ _ _ ts =>
                Raise (SdkError ("no data in " ++ ts));
              open_write := fun _ _ => Return tt |} in
  let L := {| json_dumps_default_str := fun _ => EmptyString;
              csv_DictWriter := fun _ _ => Return EmptyString |} in
  handle_call_tool W L "query_logs"
    {| fields := [("workspace_id", "w"); ("query", "AppEvents");
                  ("timespan", "PT1H")];
       limit_arg := None |} initial
  = handle_call_tool W L "query_logs"
      {| fields := [("workspace_id", "w"); ("query", "AppEvents")];
         limit_arg := None |} initial.
Proof.
  intros W L.
  pose (none := {| tool_name := EmptyString; tool_description := EmptyString;
                   properties := []; required := [] |}).
  refine (proj1 (X19_declared_defaults_are_honoured
                   W L (hd none handle_list_tools) "timespan"
                   {| prop_type := "string"; prop_description := Some "Time range";
                      prop_enum := None; prop_default := Some (VStr "PT1H") |}
                   {| fields := [("workspace_id", "w"); ("query", "AppEvents")];
                      limit_arg := None |}
                   initial _ _) "PT1H" eq_refl eq_refl).
  - simpl. left. reflexivity.
  - simpl. tauto.
Defined.

End Defaults.

(** ** The alert manager: the history *)

Section AlertHistory.
Import Alerts.

Lemma mapM_raises {A B} (f : A -> except B) (l : list A) (a : A) (e : exn) :
  In a l -> f a = Raise e -> exists e', mapM f l = Raise e'.
Proof.
  induction l as [|x l IH]; simpl; intros Hin Hf.
  - contradiction.
  - destruct (f x) as [b|e0] eqn:Hx; [|exists e0; reflexivity].
    destruct Hin as [->|Hin]; [congruence|].
    destruct (IH Hin Hf) as [e' He']. rewrite He'. exists e'. reflexivity.
Qed.

Lemma history_entry_readable alert_name event :
  readable alert_name event ->
  history_entry alert_name event
  = Return (if matches alert_name event then Some (history_item event)
            else None).
Proof.
  intros [Hrid Hkept]. unfold history_entry, matches, history_item in *.
  destruct (resource_id event) as [rid|]; [|contradiction].
  destruct (contains alert_name rid); [|reflexivity].
  destruct (Hkept eq_refl) as [Hts Hst].
  destruct (event_timestamp event) as [ts|]; [|contradiction].
  destruct (status event) as [s|]; [|contradiction].
  reflexivity.
Qed.

Lemma history_of_readable alert_name events :
  Forall (readable alert_name) events ->
  bind (mapM (history_entry alert_name) events)
       (fun entries => Return (collect entries))
  = Return (map history_item (filter (matches alert_name) events)).
Proof.
  induction 1 as [|event events Hev _ IH]; [reflexivity|].
  cbn [mapM]. rewrite (history_entry_readable _ _ Hev). cbn [bind].
  destruct (mapM (history_entry alert_name) events) as [entries|e];
    [|discriminate].
  cbn [bind] in *. injection IH as IH. cbn [filter].
  destruct (matches alert_name event); cbn [collect map]; rewrite IH;
    reflexivity.
Qed.

Lemma get_alert_history_readable self resource_group alert_name days events :
  (forall filter_str, activity_logs_list (client self) filter_str
                      = Return events) ->
  Forall (readable alert_name) events ->
  get_alert_history self resource_group alert_name days
  = Return (PDict [("status", PStr "success");
                   ("history",
                    PList (map history_item
                               (filter (matches alert_name) events)))]).
Proof.
  intros Hlist Hread. unfold get_alert_history, catch.
  rewrite Hlist. cbn [bind].
  pose proof (history_of_readable alert_name events Hread) as H.
  destruct (mapM (history_entry alert_name) events) as [entries|e];
    [|discriminate].
  cbn [bind] in *. injection H as ->. reflexivity.
Qed.

(** X20: the history of an alert is the activity-log entries whose
    resource id contains the alert name, in the order of the log, each
    with its time stamp, status and description; entries that are not
    kept need no time stamp or status. *)
Theorem X20_history_keeps_the_matching_entries :
  forall (self : AlertManager) (resource_group alert_name : string)
         (days : option Z) (events : list EventData),
    (forall filter_str, activity_logs_list (client self) filter_str
                        = Return events) ->
    Forall (readable alert_name) events ->
    get_alert_history self resource_group alert_name days
    = Return (PDict [("status", PStr "success");
                     ("history",
                      PList (map history_item
                                 (filter (matches alert_name) events)))]).
Proof.
  intros self resource_group alert_name days events Hlist Hread.
  apply get_alert_history_readable; assumption.
Qed.

Lemma X20_history_keeps_the_matching_entries_witness :
  let kept := {| resource_id := Some "/rules/cpu-high";
                 event_timestamp := Some "2024-05-01T10:00:00";
                 status := Some "Succeeded";
                 event_description := VStr "updated" |} in
  let other := {| resource_id := Some "/rules/disk-full";
                  event_timestamp := None; status := None;
                  event_description := VNone |} in
  let self := {| client :=
                   {| create_or_update := fun _ _ _ => Return VNone;
                      list_by_resource_group := fun _ => Return [];
                      list_by_subscription := Return [];
                      activity_logs_list := fun _ => Return [other; kept] |};
                 subscription_id := "sub" |} in
  get_alert_history self "rg" "cpu-high" None
  = Return (PDict [("status", PStr "success");
                   ("history", PList [history_item kept])]).
Proof.
  intros kept other self.
  apply (X20_history_keeps_the_matching_entries self "rg" "cpu-high" None
           [other; kept]).
  - intros filter_str. reflexivity.
  - repeat constructor; try discriminate; intros H; vm_compute in H;
      discriminate.
Defined.

(** X21: one activity-log entry without a resource id turns the whole
    history into an error result, whatever the other entries hold. *)
Theorem X21_one_unreadable_entry_fails_the_history :
  forall (self : AlertManager) (resource_group alert_name : string)
         (days : option Z) (events : list EventData) (event : EventData),
    (forall filter_str, activity_logs_list (client self) filter_str
                        = Return events) ->
    In event events ->
    resource_id event = None ->
    exists message,
      get_alert_history self resource_group alert_name days
      = Return (PDict [("status", PStr "error");
                       ("message", PStr message)]).
Proof.
  intros self resource_group alert_name days events event Hlist Hin Hrid.
  unfold get_alert_history, catch. rewrite Hlist. cbn [bind].
  destruct (mapM_raises (history_entry alert_name) events event
              (TypeError "argument of type 'NoneType' is not iterable") Hin)
    as [e' He'].
  - unfold history_entry. rewrite Hrid. reflexivity.
  - rewrite He'. cbn [bind]. eexists. reflexivity.
Qed.

Lemma X21_one_unreadable_entry_fails_the_history_witness :
  let kept := {| resource_id := Some "/rules/cpu-high";
                 event_timestamp := Some "2024-05-01T10:00:00";
                 status := Some "Succeeded";
                 event_description := VStr "updated" |} in
  let bare := {| resource_id := None;
                 event_timestamp := None; status := None;
                 event_description := VNone |} in
  let self := {| client :=
                   {| create_or_update := fun _ _ _ => Return VNone;
                      list_by_resource_group := fun _ => Return [];
                      list_by_subscription := Return [];
                      activity_logs_list := fun _ => Return [kept; bare] |};
                 subscription_id := "sub" |} in
  exists message,
    get_alert_history self "rg" "cpu-high" None
    = Return (PDict [("status", PStr "error"); ("message", PStr message)]).
Proof.
  intros kept bare self.
  apply (X21_one_unreadable_entry_fails_the_history self "rg" "cpu-high" None
           [kept; bare] bare).
  - intros filter_str. reflexivity.
  - simpl. tauto.
  - reflexivity.
Defined.

Lemma contains_empty (hay : string) : contains EmptyString hay = true.
Proof.
  destruct hay; reflexivity.
Qed.

Lemma filter_empty_name (events : list EventData) :
  Forall (fun event => resource_id event <> None) events ->
  filter (matches EmptyString) events = events.
Proof.
  induction 1 as [|event events Hrid _ IH]; [reflexivity|].
  cbn [filter]. unfold matches at 1.
  destruct (resource_id event) as [rid|]; [|contradiction].
  rewrite contains_empty, IH. reflexivity.
Qed.

(** X22: an empty alert name keeps every entry: the history then holds
    the whole activity log the service returned, in order. *)
Theorem X22_empty_alert_name_keeps_everything :
  forall (self : AlertManager) (resource_group : string) (days : option Z)
         (events : list EventData),
    (forall filter_str, activity_logs_list (client self) filter_str
                        = Return events) ->
    Forall (fun event => resource_id event <> None
                         /\ event_timestamp event <> None
                         /\ status event <> None) events ->
    get_alert_history self resource_group EmptyString days
    = Return (PDict [("status", PStr "success");
                     ("history", PList (map history_item events))]).
Proof.
  intros self resource_group days events Hlist Hall.
  assert (Hkeep : filter (matches EmptyString) events = events).
  { apply filter_empty_name. apply Forall_forall. intros event Hin.
    rewrite Forall_forall in Hall. apply (Hall event Hin). }
  rewrite (get_alert_history_readable self resource_group EmptyString days
             events Hlist).
  - rewrite Hkeep. reflexivity.
  - apply Forall_forall. intros event Hin.
    rewrite Forall_forall in Hall. destruct (Hall event Hin) as (Hr & Ht & Hs).
    split; [exact Hr|]. intros _. split; assumption.
Qed.

Lemma X22_empty_alert_name_keeps_everything_witness :
  let one := {| resource_id := Some "/rules/cpu-high";
                event_timestamp := Some "2024-05-01T10:00:00";
                status := Some "Succeeded";
                event_description := VStr "updated" |} in
  let two := {| resource_id := Some "/rules/disk-full";
                event_timestamp := Some "2024-05-02T11:30:00";
                status := Some "Failed";
                event_description := VNone |} in
  let self := {| client :=
                   {| create_or_update := fun _ _ _ => Return VNone;
                      list_by_resource_group := fun _ => Return [];
                      list_by_subscription := Return [];
                      activity_logs_list := fun _ => Return [one; two] |};
                 subscription_id := "sub" |} in
  get_alert_history self "rg" EmptyString (Some 30%Z)
  = Return (PDict [("status", PStr "success");
                   ("history", PList [history_item one; history_item two])]).
Proof.
  intros one two self.
  apply (X22_empty_alert_name_keeps_everything self "rg" (Some 30%Z)
           [one; two]).
  - intros filter_str. reflexivity.
  - repeat constructor; discriminate.
Defined.

End AlertHistory.
